(** * langchain-athena-adapter: schema loader, validators, formatter, facade

    A shallow embedding of [src/athena-sql-db.ts] and [src/athena-sql-utils.ts]
    and the properties of the specification established on it.

    Conventions of the embedding:
    - a JavaScript string is a [string]; template literals are concatenations;
    - an optional property ([dataType?], [isNullable?], [includesTables?]) is
      an [option], [None] standing for [undefined];
    - a [Record<string, string>] is a [gmap string string];
    - a thrown [Error] is a value of [Exn]; a function that may throw returns
      a [Res];
    - asynchronous code that talks to the query service is written in the
      monad [M], which threads the state of the service, the list of the
      statements issued so far and the lines written by [console.log];
    - a JavaScript number is a [JsNumber]: an integer that the language holds
      exactly, or one of the other numbers, which the embedding leaves to
      the conversions of the language. *)

From Stdlib Require Import ZArith String Ascii DecimalString.
From stdpp Require Import base tactics option list strings gmap.

Local Open Scope Z_scope.

(** ** Errors *)

Inductive Exn : Type :=
| Error (message : string).

Inductive Res (A : Type) : Type :=
| Ok (a : A)
| Throw (e : Exn).
Arguments Ok {A} a.
Arguments Throw {A} e.

(** ** The values the adapter passes through

    The adapter never looks into a value held by a row of a result set, nor
    into a number that is not a small integer: it hands them to the
    conversions of the language. These values and conversions are the fields
    of [JsRuntime], so that what is proved holds for every value and for what
    the conversions really do:
    - [JsValue], a value held by a row, and [ToString], the conversion a
      template literal applies to it, which may throw;
    - [JSON_stringify], applied by [run] to an array of row objects ([inl])
      or to one row object ([inr]), which may throw;
    - [OtherNumber], a number that is not an integer of magnitude below
      2^53 (a fraction, a larger magnitude, NaN, an infinity), with its
      conversion to a string and its truthiness. *)
Class JsRuntime : Type := {
  JsValue : Type;
  ToString : JsValue -> Res string;
  JSON_stringify :
    list (list (string * JsValue)) + list (string * JsValue) -> Res string;
  OtherNumber : Type;
  OtherNumber_toString : OtherNumber -> string;
  OtherNumber_ToBoolean : OtherNumber -> bool;
}.

(** A row object of a result set: its own enumerable properties, in the
    order in which [Object.values] enumerates them. *)
Definition Row `{JsRuntime} : Type := list (string * JsValue).

Definition Object_values `{JsRuntime} (oneRow : Row) : list JsValue := map snd oneRow.

Definition safe_integer (z : Z) : Prop := Is_true (Z.abs z <? 2 ^ 53).

(** A number: an integer of magnitude below 2^53, which the language holds
    exactly, or another number. *)
Inductive JsNumber `{JsRuntime} : Type :=
| SafeInteger (z : Z) (Hz : safe_integer z)
| Other (x : OtherNumber).

(** [Number.prototype.toString]; a safe integer prints as its decimal
    digits. *)
Definition Number_toString `{JsRuntime} (n : JsNumber) : string :=
  match n with
  | SafeInteger z _ => NilZero.string_of_int (Z.to_int z)
  | Other x => OtherNumber_toString x
  end.

(** The truthiness of a number: zero and NaN are falsy. *)
Definition ToBoolean `{JsRuntime} (n : JsNumber) : bool :=
  match n with
  | SafeInteger z _ => negb (z =? 0)
  | Other x => OtherNumber_ToBoolean x
  end.

Definition zero `{JsRuntime} : JsNumber := SafeInteger 0 I.
Definition three `{JsRuntime} : JsNumber := SafeInteger 3 I.

(** [Array.prototype.join]. *)
Fixpoint Array_join (sep : string) (l : list string) : string :=
  match l with
  | [] => ""
  | [x] => x
  | x :: rest => x +:+ sep +:+ Array_join sep rest
  end.

(** [Array.prototype.reduce], and a [for ... of] loop that threads a value,
    when the body may throw. *)
Fixpoint reduce {A B} (f : B -> A -> Res B) (l : list A) (acc : B) : Res B :=
  match l with
  | [] => Ok acc
  | x :: rest =>
      match f acc x with
      | Ok acc' => reduce f rest acc'
      | Throw e => Throw e
      end
  end.

Definition str1 (c : ascii) : string := String c EmptyString.

Definition dquote : string := str1 (ascii_of_N 34).

(** [Array.prototype.includes] on an array of strings. *)
Definition Array_includes (l : list string) (x : string) : bool :=
  existsb (String.eqb x) l.

(** [Array.prototype.filter]. *)
Definition Array_filter {A} (p : A -> bool) (l : list A) : list A :=
  List.filter p l.

(** ** Data model ([athena-sql-utils.ts]) *)

Record RawResultTableAndColumn : Type := {
  table_name : string;
  column_name : string;
  data_type : option string;
  is_nullable : option string;
}.

Record SqlColumn : Type := {
  columnName : string;
  dataType : option string;
  isNullable : option bool;
}.

Record SqlTable : Type := {
  tableName : string;
  columns : list SqlColumn;
}.

(** ** Validators *)

(** The [for ... of] loop of [verifyListTablesExistInDatabase]. *)
Fixpoint verify_loop (onlyTableNames listTables : list string)
    (errorPrefixMsg : string) : Res unit :=
  match listTables with
  | [] => Ok tt
  | tableName :: rest =>
      if negb (Array_includes onlyTableNames tableName) then
        Throw (Error (errorPrefixMsg +:+ " the table " +:+ tableName
                        +:+ " was not found in the database"))
      else verify_loop onlyTableNames rest errorPrefixMsg
  end.

Definition verifyListTablesExistInDatabase (tablesFromDatabase : list SqlTable)
    (listTables : list string) (errorPrefixMsg : string) : Res unit :=
  let onlyTableNames := map tableName tablesFromDatabase in
  if (0 <? length listTables)%nat then
    verify_loop onlyTableNames listTables errorPrefixMsg
  else Ok tt.

Definition verifyIncludeTablesExistInDatabase (tablesFromDatabase : list SqlTable)
    (includeTables : list string) : Res unit :=
  verifyListTablesExistInDatabase tablesFromDatabase includeTables
    "Include tables not found in database:".

Definition verifyIgnoreTablesExistInDatabase (tablesFromDatabase : list SqlTable)
    (ignoreTables : list string) : Res unit :=
  verifyListTablesExistInDatabase tablesFromDatabase ignoreTables
    "Ignore tables not found in database:".

(** ** Schema loader: the fold of the flat row set *)

(** [oneResult.is_nullable === 'YES'] *)
Definition is_YES (v : option string) : bool :=
  match v with
  | Some s => String.eqb s "YES"
  | None => false
  end.

Definition sqlColumnOf (oneResult : RawResultTableAndColumn) : SqlColumn :=
  {| columnName := column_name oneResult;
     dataType := data_type oneResult;
     isNullable := Some (is_YES (is_nullable oneResult)) |}.

(** [currentTable.columns.push(sqlColumn)] *)
Definition push_column (sqlColumn : SqlColumn) (t : SqlTable) : SqlTable :=
  {| tableName := tableName t; columns := columns t ++ [sqlColumn] |}.

(** One iteration of the loop of [formatToSqlTable]. [find] yields the first
    table object with that name; the object is shared with the array, so the
    [push] onto its columns is an update of the array at that index. *)
Definition formatToSqlTable_step (sqlTable : list SqlTable)
    (oneResult : RawResultTableAndColumn) : list SqlTable :=
  let sqlColumn := sqlColumnOf oneResult in
  match list_find (fun oneTable => tableName oneTable = table_name oneResult) sqlTable with
  | Some (i, _) => alter (push_column sqlColumn) i sqlTable
  | None =>
      sqlTable ++ [ {| tableName := table_name oneResult; columns := [sqlColumn] |} ]
  end.

Definition formatToSqlTable (rawResultsTableAndColumn : list RawResultTableAndColumn)
    : list SqlTable :=
  foldl formatToSqlTable_step [] rawResultsTableAndColumn.

(** ** The query client ([athena-query-client], an external package)

    The adapter uses three things of the client: its constructor, its
    [database] attribute and its asynchronous [query] method. The
    constructor yields a handle and talks to no service. [query] is a
    transition on the state of the remote service that either rejects or
    resolves to an array of row objects. [asRawResult] is the unchecked cast
    by which [getTableAndColumnsName] reads a result row as a
    [RawResultTableAndColumn]. *)

Class AthenaQueryClientApi `{Js : JsRuntime} : Type := {
  AthenaQueryClientConfig : Type;
  AthenaQueryClient : Type;
  Service : Type;
  new_AthenaQueryClient : AthenaQueryClientConfig -> AthenaQueryClient;
  client_database : AthenaQueryClient -> string;
  client_query : AthenaQueryClient -> string -> Service -> Res (list Row) * Service;
  asRawResult : Row -> RawResultTableAndColumn;
}.

Definition nl : string := str1 (ascii_of_N 10).

(** The callback of the [reduce] over the values of a row: the template
    literal converts the value, which may throw. *)
Definition append_value `{JsRuntime} (completeString : string) (columnValue : JsValue)
    : Res string :=
  match ToString columnValue with
  | Ok text => Ok (completeString +:+ " " +:+ text)
  | Throw e => Throw e
  end.

(** The body of the loop over the rows. *)
Definition append_row `{JsRuntime} (globalString : string) (oneRow : Row) : Res string :=
  match reduce append_value (Object_values oneRow) "" with
  | Ok line => Ok (globalString +:+ line +:+ nl)
  | Throw e => Throw e
  end.

(** [formatSqlResponseToSimpleTableString]. Its argument is either [null]
    (here [None]) or what [query] resolved to. *)
Definition formatSqlResponseToSimpleTableString `{JsRuntime}
    (rawResult : option (list Row)) : Res string :=
  match rawResult with
  | None => Ok ""
  | Some rows =>
      if (length rows =? 0)%nat then Ok ""
      else reduce append_row rows ""
  end.

(** The loop over [currentTable.columns.entries()]. *)
Fixpoint columns_loop (key : nat) (cols : list SqlColumn)
    (sqlCreateTableQuery : string) : string :=
  match cols with
  | [] => sqlCreateTableQuery
  | currentColumn :: rest =>
      let q := if (0 <? key)%nat then sqlCreateTableQuery +:+ ", "
               else sqlCreateTableQuery in
      columns_loop (S key) rest
        (q +:+ columnName currentColumn +:+ " "
           +:+ match dataType currentColumn with
               | Some ty => ty
               | None => "undefined"
               end
           +:+ " "
           +:+ match isNullable currentColumn with
               | Some true => ""
               | _ => "NOT NULL"
               end)
  end.

Definition tableCustomDescriptionOf (customDescription : option (gmap string string))
    (currentTable : SqlTable) : string :=
  match customDescription with
  | Some descriptions =>
      match descriptions !! tableName currentTable with
      | Some text => text +:+ nl
      | None => ""
      end
  | None => ""
  end.

Definition sqlCreateTableQueryOf (currentTable : SqlTable) : string :=
  let schema : option string := None in
  let sqlCreateTableQuery :=
    match schema with
    | Some sch =>
        "CREATE TABLE " +:+ dquote +:+ sch +:+ dquote +:+ "." +:+ dquote
          +:+ tableName currentTable +:+ dquote +:+ " (" +:+ nl
    | None => "CREATE TABLE " +:+ tableName currentTable +:+ " (" +:+ nl
    end in
  columns_loop 0 (columns currentTable) sqlCreateTableQuery +:+ ") " +:+ nl.

Definition sqlSelectInfoQueryOf `{JsRuntime} (currentTable : SqlTable)
    (nbSampleRow : JsNumber) : string :=
  "SELECT * FROM " +:+ tableName currentTable +:+ " LIMIT "
    +:+ Number_toString nbSampleRow +:+ ";" +:+ nl.

Definition columnNamesConcatStringOf (currentTable : SqlTable) : string :=
  foldl (fun completeString column => completeString +:+ " " +:+ columnName column)
        "" (columns currentTable) +:+ nl.

(** The text of one table, once its sample text is known. *)
Definition table_block `{JsRuntime} (customDescription : option (gmap string string))
    (nbSampleRow : JsNumber) (currentTable : SqlTable) (sample : string) : string :=
  tableCustomDescriptionOf customDescription currentTable
    +:+ sqlCreateTableQueryOf currentTable
    +:+ sqlSelectInfoQueryOf currentTable nbSampleRow
    +:+ columnNamesConcatStringOf currentTable
    +:+ sample.

Inductive FetchMode : Type := fetch_all | fetch_one.

Section Adapter.
Context {Js : JsRuntime} {Api : AthenaQueryClientApi}.

(** *** The monad of the asynchronous code *)

Record World : Type := {
  service : Service;
  issued : list string;
  console : list Exn;
}.

Definition M (A : Type) : Type := World -> Res A * World.

Definition ret {A} (a : A) : M A := fun w => (Ok a, w).

Definition bind {A B} (m : M A) (k : A -> M B) : M B :=
  fun w =>
    match m w with
    | (Ok a, w') => k a w'
    | (Throw e, w') => (Throw e, w')
    end.

Definition lift {A} (r : Res A) : M A := fun w => (r, w).

(** [try { body } catch (error) { handler }] *)
Definition try_catch {A} (body : M A) (handler : Exn -> M A) : M A :=
  fun w =>
    match body w with
    | (Ok a, w') => (Ok a, w')
    | (Throw e, w') => handler e w'
    end.

Definition console_log (e : Exn) : M unit :=
  fun w => (Ok tt, {| service := service w; issued := issued w;
                      console := console w ++ [e] |}).

(** [await appDataSource.query(sql)] *)
Definition query (appDataSource : AthenaQueryClient) (sql : string) : M (list Row) :=
  fun w =>
    let (r, s') := client_query appDataSource sql (service w) in
    (r, {| service := s'; issued := issued w ++ [sql]; console := console w |}).

Notation "'let!' x ':=' m 'in' k" := (bind m (fun x => k))
  (at level 10, x name, m at level 100, k at level 200).

(** *** Schema loader *)

Definition getTableAndColumnsName (appDataSource : AthenaQueryClient)
    : M (list SqlTable) :=
  let sql :=
    "SELECT " +:+ "TABLE_NAME AS table_name, " +:+ "COLUMN_NAME AS column_name, "
      +:+ "DATA_TYPE AS data_type, " +:+ "IS_NULLABLE AS is_nullable "
      +:+ "FROM INFORMATION_SCHEMA.COLUMNS "
      +:+ "WHERE TABLE_SCHEMA = '" +:+ client_database appDataSource +:+ "';" in
  let! rep := query appDataSource sql in
  ret (formatToSqlTable (map asRawResult rep)).

(** *** Formatter *)

(** The [try] block that computes [sample] for one table. *)
Definition sampleOf (appDataSource : AthenaQueryClient) (nbSampleRow : JsNumber)
    (sqlSelectInfoQuery : string) : M string :=
  try_catch
    (let! infoObjectResult :=
       (if ToBoolean nbSampleRow
        then let! rows := query appDataSource sqlSelectInfoQuery in ret (Some rows)
        else ret None) in
     lift (formatSqlResponseToSimpleTableString infoObjectResult))
    (fun error => let! _ := console_log error in ret "").

(** The loop of [generateTableInfoFromTables] over the tables. *)
Fixpoint tables_loop (tables : list SqlTable) (appDataSource : AthenaQueryClient)
    (nbSampleRow : JsNumber) (customDescription : option (gmap string string))
    (globalString : string) : M string :=
  match tables with
  | [] => ret globalString
  | currentTable :: rest =>
      let! sample :=
        sampleOf appDataSource nbSampleRow
          (sqlSelectInfoQueryOf currentTable nbSampleRow) in
      tables_loop rest appDataSource nbSampleRow customDescription
        (globalString +:+ table_block customDescription nbSampleRow currentTable sample)
  end.

Definition generateTableInfoFromTables (tables : option (list SqlTable))
    (appDataSource : AthenaQueryClient) (nbSampleRow : JsNumber)
    (customDescription : option (gmap string string)) : M string :=
  match tables with
  | None => ret ""
  | Some tables => tables_loop tables appDataSource nbSampleRow customDescription ""
  end.

(** *** Facade ([athena-sql-db.ts]) *)

Record AthenaSqlDatabaseDataSourceParams : Type := {
  config_athenaDataSourceConfig : AthenaQueryClientConfig;
  config_includesTables : option (list string);
  config_ignoreTables : option (list string);
  config_sampleRowsInTableInfo : option JsNumber;
  config_customDescription : option (gmap string string);
}.

(** The fields [clientConfig], [database] and [catalog] are declared and
    never assigned nor read; they are left out. *)
Record AthenaSqlDatabase : Type := {
  athenaDataSource : AthenaQueryClient;
  allTables : list SqlTable;
  includesTables : list string;
  ignoreTables : list string;
  sampleRowsInTableInfo : JsNumber;
  customDescription : option (gmap string string);
}.

Definition constructor (config : AthenaSqlDatabaseDataSourceParams)
    : Res AthenaSqlDatabase :=
  let client := new_AthenaQueryClient (config_athenaDataSourceConfig config) in
  match config_includesTables config, config_ignoreTables config with
  | Some _, Some _ =>
      Throw (Error "Cannot specify both include_tables and ignoreTables")
  | _, _ =>
      Ok {| athenaDataSource := client;
            allTables := [];
            includesTables := default [] (config_includesTables config);
            ignoreTables := default [] (config_ignoreTables config);
            sampleRowsInTableInfo := default three (config_sampleRowsInTableInfo config);
            customDescription := None |}
  end.

Definition with_allTables (db : AthenaSqlDatabase) (tables : list SqlTable)
    : AthenaSqlDatabase :=
  {| athenaDataSource := athenaDataSource db;
     allTables := tables;
     includesTables := includesTables db;
     ignoreTables := ignoreTables db;
     sampleRowsInTableInfo := sampleRowsInTableInfo db;
     customDescription := customDescription db |}.

Definition fromDataSourceParams (fields : AthenaSqlDatabaseDataSourceParams)
    : M AthenaSqlDatabase :=
  let! sqlDatabase := lift (constructor fields) in
  let! tables := getTableAndColumnsName (athenaDataSource sqlDatabase) in
  let sqlDatabase := with_allTables sqlDatabase tables in
  let! _ := lift (verifyIncludeTablesExistInDatabase
                    (allTables sqlDatabase) (includesTables sqlDatabase)) in
  let! _ := lift (verifyIgnoreTablesExistInDatabase
                    (allTables sqlDatabase) (ignoreTables sqlDatabase)) in
  ret sqlDatabase.

(** The part of [getTableInfo] that computes [selectedTables]. *)
Definition selectedTablesOf (this : AthenaSqlDatabase)
    (targetTables : option (list string)) : Res (list SqlTable) :=
  let selectedTables :=
    if (0 <? length (includesTables this))%nat then
      Array_filter (fun currentTable =>
                      Array_includes (includesTables this) (tableName currentTable))
                   (allTables this)
    else allTables this in
  let selectedTables :=
    if (0 <? length (ignoreTables this))%nat then
      Array_filter (fun currentTable =>
                      negb (Array_includes (ignoreTables this) (tableName currentTable)))
                   selectedTables
    else selectedTables in
  match targetTables with
  | Some targets =>
      if (0 <? length targets)%nat then
        match verifyListTablesExistInDatabase (allTables this) targets
                "Wrong target table name:" with
        | Throw e => Throw e
        | Ok _ =>
            Ok (Array_filter (fun currentTable =>
                                Array_includes targets (tableName currentTable))
                             (allTables this))
        end
      else Ok selectedTables
  | None => Ok selectedTables
  end.

Definition getTableInfo (this : AthenaSqlDatabase)
    (targetTables : option (list string)) : M string :=
  let! selectedTables := lift (selectedTablesOf this targetTables) in
  generateTableInfoFromTables (Some selectedTables) (athenaDataSource this)
    (sampleRowsInTableInfo this) (customDescription this).

(** [run]; an omitted [fetch] is ['all']. *)
Definition run (this : AthenaSqlDatabase) (command : string)
    (fetch : option FetchMode) : M string :=
  let fetch := default fetch_all fetch in
  let! res := query (athenaDataSource this) command in
  match fetch with
  | fetch_all => lift (JSON_stringify (inl res))
  | fetch_one =>
      if (0 <? length res)%nat then
        match res !! 0%nat with
        | Some first => lift (JSON_stringify (inr first))
        | None => ret "" (* not reached: the array is not empty *)
        end
      else ret ""
  end.

End Adapter.

(** ** Notions of the specification *)

(** [needle] occurs in [hay]. *)
Definition Contains (needle hay : string) : Prop :=
  exists pre post, hay = pre +:+ needle +:+ post.

Fixpoint starts_with (needle hay : string) : bool :=
  match needle, hay with
  | EmptyString, _ => true
  | String a needle', String b hay' => Ascii.eqb a b && starts_with needle' hay'
  | String _ _, EmptyString => false
  end.

(** [String.prototype.includes], the decision procedure for [Contains]. *)
Fixpoint String_includes (needle hay : string) : bool :=
  starts_with needle hay ||
  match hay with
  | EmptyString => false
  | String _ hay' => String_includes needle hay'
  end.

(** The distinct elements of a list, each at the place of its first
    occurrence. *)
Fixpoint first_seen (l : list string) : list string :=
  match l with
  | [] => []
  | x :: rest => x :: filter (fun y => y <> x) (first_seen rest)
  end.

(** The table the specification describes for the name [n]: the columns of
    the rows that carry this name, in the order of the rows. *)
Definition table_of_rows (rows : list RawResultTableAndColumn) (n : string) : SqlTable :=
  {| tableName := n;
     columns := map sqlColumnOf (filter (fun r => table_name r = n) rows) |}.

Definition tables_of_rows (rows : list RawResultTableAndColumn) : list SqlTable :=
  map (table_of_rows rows) (first_seen (map table_name rows)).

(** Selection by the configured lists, in the words of the specification:
    intersect with the include list if it is not empty, then subtract the
    ignore list if it is not empty. *)
Definition intersect_include (I : list string) (T : list SqlTable) : list SqlTable :=
  match I with
  | [] => T
  | _ => filter (fun t => tableName t ∈ I) T
  end.

Definition subtract_ignore (G : list string) (T : list SqlTable) : list SqlTable :=
  match G with
  | [] => T
  | _ => filter (fun t => tableName t ∉ G) T
  end.

Definition configured_selection (T : list SqlTable) (I G : list string) : list SqlTable :=
  subtract_ignore G (intersect_include I T).

(** Selection by a target list: the loaded tables whose name is a target. *)
Definition target_selection (T : list SqlTable) (targets : list string) : list SqlTable :=
  filter (fun t => tableName t ∈ targets) T.

(** The message of a validation error. *)
Definition not_found_message (errorPrefixMsg tableName : string) : string :=
  errorPrefixMsg +:+ " the table " +:+ tableName +:+ " was not found in the database".

(** The text of a list of tables when every sample text is empty. *)
Definition blocks_without_samples `{JsRuntime}
    (customDescription : option (gmap string string))
    (nbSampleRow : JsNumber) (tables : list SqlTable) : string :=
  foldl (fun text t => text +:+ table_block customDescription nbSampleRow t "") "" tables.

(** ** Values and a client for the examples

    The values of the examples are null, the booleans, the safe integers and
    the strings, with the conversions the language applies to them; the
    examples have no other number.

    The service of the client counts the statements it has served. The
    client rejects every statement that reads the table [broken], answers a
    statement with the condition [1 = 0] with no row and every other
    statement with the one row [{a: 1}]. *)
Module Demo.

Inductive Value : Type :=
| VNull
| VBool (b : bool)
| VInt (z : Z) (Hz : safe_integer z)
| VStr (s : string).

Definition decimal (z : Z) : string := NilZero.string_of_int (Z.to_int z).

Definition to_string (v : Value) : string :=
  match v with
  | VNull => "null"
  | VBool true => "true"
  | VBool false => "false"
  | VInt z _ => decimal z
  | VStr s => s
  end.

Definition hex_digit (n : N) : ascii :=
  ascii_of_N (if (n <? 10)%N then 48 + n else 87 + n).

Definition backslash : string := str1 (ascii_of_N 92).

(** One code unit of [QuoteJSONString]. *)
Definition quote_char (c : ascii) : string :=
  let n := N_of_ascii c in
  if (n =? 34)%N then backslash +:+ dquote
  else if (n =? 92)%N then backslash +:+ backslash
  else if (n =? 8)%N then backslash +:+ "b"
  else if (n =? 9)%N then backslash +:+ "t"
  else if (n =? 10)%N then backslash +:+ "n"
  else if (n =? 12)%N then backslash +:+ "f"
  else if (n =? 13)%N then backslash +:+ "r"
  else if (n <? 32)%N then
    backslash +:+ "u00" +:+ str1 (hex_digit (n / 16)) +:+ str1 (hex_digit (n mod 16))
  else str1 c.

Fixpoint quote_chars (s : string) : string :=
  match s with
  | EmptyString => ""
  | String c rest => quote_char c +:+ quote_chars rest
  end.

Definition QuoteJSONString (s : string) : string :=
  dquote +:+ quote_chars s +:+ dquote.

Definition json_value (v : Value) : string :=
  match v with
  | VNull => "null"
  | VBool true => "true"
  | VBool false => "false"
  | VInt z _ => decimal z
  | VStr s => QuoteJSONString s
  end.

Definition json_row (r : list (string * Value)) : string :=
  "{" +:+ Array_join ","
            (map (fun p => QuoteJSONString (fst p) +:+ ":" +:+ json_value (snd p)) r)
      +:+ "}".

Definition json (x : list (list (string * Value)) + list (string * Value)) : string :=
  match x with
  | inl rows => "[" +:+ Array_join "," (map json_row rows) +:+ "]"
  | inr r => json_row r
  end.

Definition runtime : JsRuntime :=
  {| JsValue := Value;
     ToString := fun v => Ok (to_string v);
     JSON_stringify := fun x => Ok (json x);
     OtherNumber := Empty_set;
     OtherNumber_toString := fun x => match x with end;
     OtherNumber_ToBoolean := fun x => match x with end |}.

Definition two : @JsNumber runtime := SafeInteger 2 I.

Definition read_string (k : string) (r : @Row runtime) : option string :=
  match list_find (fun p => fst p = k) r with
  | Some (_, (_, VStr s)) => Some s
  | _ => None
  end.

Definition answer (sql : string) : Res (list (@Row runtime)) :=
  if String_includes "FROM broken " sql then Throw (Error "TABLE_NOT_FOUND")
  else if String_includes "WHERE 1 = 0" sql then Ok []
  else Ok [[("a", VInt 1 I)]].

Definition api : @AthenaQueryClientApi runtime :=
  {| AthenaQueryClientConfig := string;
     AthenaQueryClient := string;
     Service := nat;
     new_AthenaQueryClient := fun db => db;
     client_database := fun db => db;
     client_query := fun _ sql served => (answer sql, S served);
     asRawResult := fun r =>
       {| table_name := default "" (read_string "table_name" r);
          column_name := default "" (read_string "column_name" r);
          data_type := read_string "data_type" r;
          is_nullable := read_string "is_nullable" r |} |}.

Definition client : @AthenaQueryClient _ api := "sales".

Definition world0 : @World _ api := @Build_World _ api 0%nat [] [].

Definition col (n ty : string) (nullable : bool) : SqlColumn :=
  {| columnName := n; dataType := Some ty; isNullable := Some nullable |}.

Definition t : SqlTable :=
  {| tableName := "t"; columns := [col "id" "int" false; col "name" "varchar" true] |}.

Definition broken : SqlTable :=
  {| tableName := "broken"; columns := [col "x" "int" true] |}.

Definition u : SqlTable :=
  {| tableName := "u"; columns := [col "k" "bigint" false] |}.

Definition db (I G : list string) (n : @JsNumber runtime) : @AthenaSqlDatabase _ api :=
  @Build_AthenaSqlDatabase _ api client [t; broken; u] I G n None.

Definition row (tn cn ty nullable : string) : RawResultTableAndColumn :=
  {| table_name := tn; column_name := cn; data_type := Some ty;
     is_nullable := Some nullable |}.

End Demo.

(** ** Further notions used by the properties of the whole adapter *)

(** The columns of a list of tables, table after table. *)
Definition all_columns (tables : list SqlTable) : list SqlColumn :=
  concat (map columns tables).

(** The concatenation of a list of strings. *)
Definition concat_all (l : list string) : string := foldr String.append "" l.

(** The entry of one column in the pseudo-DDL. *)
Definition column_entry (c : SqlColumn) : string :=
  columnName c +:+ " "
    +:+ match dataType c with Some ty => ty | None => "undefined" end
    +:+ " "
    +:+ match isNullable c with Some true => "" | _ => "NOT NULL" end.

(** The results of [f] on the elements of a list, in order; the first
    element on which [f] throws gives the error. *)
Fixpoint traverse {A B} (f : A -> Res B) (l : list A) : Res (list B) :=
  match l with
  | [] => Ok []
  | x :: rest =>
      match f x with
      | Ok y =>
          match traverse f rest with
          | Ok ys => Ok (y :: ys)
          | Throw e => Throw e
          end
      | Throw e => Throw e
      end
  end.

(** The line of one sample row: the conversion of each of its values,
    preceded by a space, then a line break. *)
Definition row_line `{JsRuntime} (oneRow : Row) : Res string :=
  match traverse ToString (Object_values oneRow) with
  | Ok texts => Ok (concat_all (map (fun text => " " +:+ text) texts) +:+ nl)
  | Throw e => Throw e
  end.

(** The sample text of the rows of a result: their lines, in order. *)
Definition sample_text `{JsRuntime} (rows : list Row) : Res string :=
  match traverse row_line rows with
  | Ok lines => Ok (concat_all lines)
  | Throw e => Throw e
  end.

(** The statement of the schema loader for a database name. *)
Definition schema_statement (database : string) : string :=
  "SELECT TABLE_NAME AS table_name, COLUMN_NAME AS column_name, "
    +:+ "DATA_TYPE AS data_type, IS_NULLABLE AS is_nullable "
    +:+ "FROM INFORMATION_SCHEMA.COLUMNS WHERE TABLE_SCHEMA = '" +:+ database +:+ "';".

(** ** A second client for the examples

    It answers the schema statement with the columns of the tables [orders]
    and [customers], unless the database is [offline], which it rejects. It
    answers the sample statement of [orders] with one row, rejects the one
    of [customers] and answers any other statement with no row. *)
Module Shop.

Definition schema_row (tn cn ty nullable : string) : @Row Demo.runtime :=
  [("table_name", Demo.VStr tn); ("column_name", Demo.VStr cn);
   ("data_type", Demo.VStr ty); ("is_nullable", Demo.VStr nullable)].

Definition schema_rows : list (@Row Demo.runtime) :=
  [schema_row "orders" "id" "bigint" "NO";
   schema_row "customers" "name" "varchar" "YES";
   schema_row "orders" "total" "double" "YES"].

Definition order_row : @Row Demo.runtime :=
  [("id", Demo.VInt 7 I); ("total", Demo.VStr "9.5")].

Definition answer (sql : string) : Res (list (@Row Demo.runtime)) :=
  if String_includes "INFORMATION_SCHEMA" sql then
    if String_includes "'offline'" sql then Throw (Error "SERVICE_UNAVAILABLE")
    else Ok schema_rows
  else if String_includes "FROM orders " sql then Ok [order_row]
  else if String_includes "FROM customers " sql then Throw (Error "ACCESS_DENIED")
  else Ok [].

Definition api : @AthenaQueryClientApi Demo.runtime :=
  {| AthenaQueryClientConfig := string;
     AthenaQueryClient := string;
     Service := nat;
     new_AthenaQueryClient := fun db => db;
     client_database := fun db => db;
     client_query := fun _ sql served => (answer sql, S served);
     asRawResult := fun r =>
       {| table_name := default "" (Demo.read_string "table_name" r);
          column_name := default "" (Demo.read_string "column_name" r);
          data_type := Demo.read_string "data_type" r;
          is_nullable := Demo.read_string "is_nullable" r |} |}.

Definition client : @AthenaQueryClient _ api := "shop".

Definition world0 : @World _ api := @Build_World _ api 0%nat [] [].

Definition orders : SqlTable :=
  {| tableName := "orders";
     columns := [Demo.col "id" "bigint" false; Demo.col "total" "double" true] |}.

Definition customers : SqlTable :=
  {| tableName := "customers"; columns := [Demo.col "name" "varchar" true] |}.

Definition params (database : string) (I G : option (list string))
    (n : option (@JsNumber Demo.runtime))
    : @AthenaSqlDatabaseDataSourceParams _ api :=
  @Build_AthenaSqlDatabaseDataSourceParams _ api database I G n None.

Definition db (I G : list string) (n : @JsNumber Demo.runtime) : @AthenaSqlDatabase _ api :=
  @Build_AthenaSqlDatabase _ api "shop" [orders; customers] I G n None.

End Shop.

(** ** Properties *)

Example number_0 `{JsRuntime} : Number_toString zero = "0".
Proof. reflexivity. Qed.

Example number_neg `{JsRuntime} : Number_toString (SafeInteger (-12) I) = "-12".
Proof. reflexivity. Qed.

Example stringify_row :
  Demo.json (inr [("a", Demo.VInt 1 I)]) = "{" +:+ dquote +:+ "a" +:+ dquote +:+ ":1}".
Proof. reflexivity. Qed.

Example formatToSqlTable_three_rows :
  formatToSqlTable
    [Demo.row "t" "id" "int" "NO"; Demo.row "u" "k" "bigint" "NO";
     Demo.row "t" "name" "varchar" "YES"]
  = [Demo.t; Demo.u].
Proof. reflexivity. Qed.

Example getTableInfo_demo :
  fst (getTableInfo (Demo.db [] [] zero) None Demo.world0)
  = Ok ("CREATE TABLE t (" +:+ nl +:+ "id int NOT NULL, name varchar ) " +:+ nl
        +:+ "SELECT * FROM t LIMIT 0;" +:+ nl +:+ " id name" +:+ nl
        +:+ "CREATE TABLE broken (" +:+ nl +:+ "x int ) " +:+ nl
        +:+ "SELECT * FROM broken LIMIT 0;" +:+ nl +:+ " x" +:+ nl
        +:+ "CREATE TABLE u (" +:+ nl +:+ "k bigint NOT NULL) " +:+ nl
        +:+ "SELECT * FROM u LIMIT 0;" +:+ nl +:+ " k" +:+ nl).
Proof. vm_compute. reflexivity. Qed.

(** *** Membership and substrings *)

Lemma Array_includes_elem_of (l : list string) (x : string) :
  Array_includes l x = true <-> x ∈ l.
Proof.
  unfold Array_includes. rewrite existsb_exists. split.
  - intros (y & Hin & Heq). apply String.eqb_eq in Heq. subst y.
    by apply list_elem_of_In.
  - intros Hin. exists x. split; [by apply list_elem_of_In | apply String.eqb_refl].
Qed.

Lemma Array_includes_false (l : list string) (x : string) :
  Array_includes l x = false <-> x ∉ l.
Proof.
  rewrite <- Array_includes_elem_of. destruct (Array_includes l x); naive_solver.
Qed.

Lemma Array_filter_includes (names : list string) (T : list SqlTable) :
  Array_filter (fun t => Array_includes names (tableName t)) T
  = filter (fun t => tableName t ∈ names) T.
Proof.
  unfold Array_filter. induction T as [|t T IH]; [done|].
  cbn [List.filter]. rewrite filter_cons, IH.
  destruct (Array_includes names (tableName t)) eqn:E.
  - apply Array_includes_elem_of in E. by rewrite decide_True.
  - apply Array_includes_false in E. by rewrite decide_False.
Qed.

Lemma Array_filter_excludes (names : list string) (T : list SqlTable) :
  Array_filter (fun t => negb (Array_includes names (tableName t))) T
  = filter (fun t => tableName t ∉ names) T.
Proof.
  unfold Array_filter. induction T as [|t T IH]; [done|].
  cbn [List.filter]. rewrite filter_cons, IH.
  destruct (Array_includes names (tableName t)) eqn:E; cbn [negb].
  - apply Array_includes_elem_of in E. rewrite decide_False; [done | naive_solver].
  - apply Array_includes_false in E. by rewrite decide_True.
Qed.

Lemma append_String (a : ascii) (s t : string) :
  String a s +:+ t = String a (s +:+ t).
Proof. reflexivity. Qed.

Lemma append_empty (t : string) : "" +:+ t = t.
Proof. reflexivity. Qed.

Lemma append_empty_r (s : string) : s +:+ "" = s.
Proof. induction s as [|a s IH]; [done|]. by rewrite append_String, IH. Qed.

Lemma append_assoc (s t u : string) : (s +:+ t) +:+ u = s +:+ t +:+ u.
Proof. induction s as [|a s IH]; [done|]. by rewrite !append_String, IH. Qed.

Lemma starts_with_app (needle post : string) :
  starts_with needle (needle +:+ post) = true.
Proof.
  induction needle as [|a needle IH]; [by destruct post|].
  rewrite append_String. cbn [starts_with]. by rewrite Ascii.eqb_refl, IH.
Qed.

Lemma String_includes_complete (needle hay : string) :
  Contains needle hay -> String_includes needle hay = true.
Proof.
  intros (pre & post & ->). induction pre as [|c pre IH].
  - rewrite append_empty. destruct (needle +:+ post) eqn:E.
    + cbn [String_includes]. by rewrite <- E, starts_with_app.
    + cbn [String_includes]. by rewrite <- E, starts_with_app.
  - rewrite append_String. cbn [String_includes]. rewrite IH. apply orb_true_r.
Qed.

Lemma not_Contains (needle hay : string) :
  String_includes needle hay = false -> ~ Contains needle hay.
Proof.
  intros Hf Hc. apply String_includes_complete in Hc. congruence.
Qed.

Lemma Contains_intro (pre needle post hay : string) :
  hay = pre +:+ needle +:+ post -> Contains needle hay.
Proof. intros ->. by exists pre, post. Qed.

(** *** The fold of the schema loader *)

Lemma elem_of_first_seen (l : list string) (x : string) :
  x ∈ first_seen l <-> x ∈ l.
Proof.
  induction l as [|a l IH]; [done|].
  cbn [first_seen]. rewrite !elem_of_cons, list_elem_of_filter, IH.
  destruct (decide (x = a)); intuition congruence.
Qed.

Lemma NoDup_first_seen (l : list string) : NoDup (first_seen l).
Proof.
  induction l as [|a l IH]; [constructor|].
  cbn [first_seen]. constructor.
  - rewrite list_elem_of_filter. intros [Hne _]. by apply Hne.
  - by apply NoDup_filter.
Qed.

Lemma first_seen_snoc (l : list string) (x : string) :
  first_seen (l ++ [x])
  = if decide (x ∈ l) then first_seen l else first_seen l ++ [x].
Proof.
  induction l as [|a l IH].
  - cbn. rewrite decide_False; [done | by apply not_elem_of_nil].
  - cbn [app first_seen]. rewrite IH.
    destruct (decide (x = a)) as [->|Hne].
    + rewrite (decide_True (P := a ∈ a :: l)) by (apply elem_of_cons; by left).
      case_decide; [done|].
      rewrite filter_app, filter_cons_False, filter_nil, app_nil_r by (intros Hne; by apply Hne).
      done.
    + destruct (decide (x ∈ l)) as [Hin|Hnin].
      * rewrite decide_True by (apply elem_of_cons; by right). done.
      * rewrite decide_False by (rewrite elem_of_cons; intuition congruence).
        rewrite filter_app, filter_cons_True, filter_nil by done. done.
Qed.

Lemma filter_none {A} (P : A -> Prop) `{forall x, Decision (P x)} (l : list A) :
  (forall x, x ∈ l -> ~ P x) -> filter P l = [].
Proof.
  induction l as [|a l IH]; intros Hall; [done|].
  rewrite filter_cons_False by (apply Hall, elem_of_cons; by left).
  apply IH. intros x Hx. apply Hall, elem_of_cons. by right.
Qed.

Lemma table_of_rows_snoc (rows : list RawResultTableAndColumn)
    (r : RawResultTableAndColumn) (m : string) :
  table_of_rows (rows ++ [r]) m
  = if decide (table_name r = m)
    then push_column (sqlColumnOf r) (table_of_rows rows m)
    else table_of_rows rows m.
Proof.
  unfold table_of_rows, push_column. cbn [tableName columns].
  rewrite filter_app. case_decide as Hm.
  - rewrite (filter_cons_True _ r) by done. by rewrite filter_nil, map_app.
  - rewrite (filter_cons_False _ r) by done. by rewrite filter_nil, app_nil_r.
Qed.

Lemma table_of_rows_fresh (rows : list RawResultTableAndColumn) (n : string) :
  n ∉ map table_name rows -> table_of_rows rows n = {| tableName := n; columns := [] |}.
Proof.
  intros Hn. unfold table_of_rows. rewrite filter_none; [done|].
  intros x Hx Hname. apply Hn. subst n.
  change (map table_name rows) with (table_name <$> rows).
  by apply list_elem_of_fmap_2.
Qed.

Lemma tableName_table_of_rows (rows : list RawResultTableAndColumn) (ns : list string) :
  map tableName (map (table_of_rows rows) ns) = ns.
Proof. induction ns as [|n ns IH]; [done|]. cbn. by rewrite IH. Qed.

(** One iteration of the loop keeps the accumulator equal to the tables of
    the rows read so far. *)
Lemma formatToSqlTable_step_snoc (rows : list RawResultTableAndColumn)
    (r : RawResultTableAndColumn) :
  formatToSqlTable_step (tables_of_rows rows) r = tables_of_rows (rows ++ [r]).
Proof.
  unfold formatToSqlTable_step, tables_of_rows.
  rewrite map_app. cbn [map]. rewrite first_seen_snoc.
  set (ns := first_seen (map table_name rows)).
  set (n := table_name r).
  assert (Hns : forall m, m ∈ ns <-> m ∈ map table_name rows)
    by (intros m; apply elem_of_first_seen).
  assert (Hnd : NoDup ns) by apply NoDup_first_seen.
  change (map (table_of_rows rows) ns) with (table_of_rows rows <$> ns).
  destruct (list_find _ _) as [[j t]|] eqn:Hfind.
  - apply list_find_Some in Hfind as (Hj & Hname & _).
    rewrite list_lookup_fmap in Hj.
    destruct (ns !! j) as [m|] eqn:Hm; [|done].
    cbn in Hj. injection Hj as <-. cbn [table_of_rows tableName] in Hname.
    subst m.
    rewrite decide_True by (apply Hns, list_elem_of_lookup; eauto).
    apply list_eq. intros k.
    change (map (table_of_rows (rows ++ [r])) ns)
      with (table_of_rows (rows ++ [r]) <$> ns).
    rewrite list_lookup_alter, !list_lookup_fmap.
    case_decide as Hk.
    + subst k. rewrite Hm. cbn. by rewrite table_of_rows_snoc, decide_True.
    + destruct (ns !! k) as [m|] eqn:Hmk; [|done]. cbn.
      rewrite table_of_rows_snoc, decide_False; [done|].
      fold n. intros <-. apply Hk. by eapply NoDup_lookup.
  - apply list_find_None in Hfind.
    destruct (decide (n ∈ map table_name rows)) as [Hin|Hnin].
    + exfalso. apply Hns in Hin.
      rewrite Forall_forall in Hfind.
      apply (Hfind (table_of_rows rows n)); [|done].
      by apply list_elem_of_fmap_2.
    + rewrite map_app. cbn [map]. f_equal.
      * apply map_ext_in. intros m Hm%list_elem_of_In.
        rewrite table_of_rows_snoc, decide_False; [done|].
        fold n. intros <-. by apply Hnin, Hns.
      * rewrite table_of_rows_snoc, decide_True by done.
        by rewrite table_of_rows_fresh.
Qed.

Lemma formatToSqlTable_tables_of_rows (rows : list RawResultTableAndColumn) :
  formatToSqlTable rows = tables_of_rows rows.
Proof.
  unfold formatToSqlTable.
  induction rows as [|r rows IH] using rev_ind; [done|].
  by rewrite foldl_app, IH; cbn [foldl]; rewrite formatToSqlTable_step_snoc.
Qed.

(** C7. For every flat row list, [formatToSqlTable] returns one table per
    distinct [table_name], the names in the order of their first occurrence,
    and the columns of each table are those of the rows that carry its name,
    in the order of the rows; no row gives no table. *)
Theorem formatToSqlTable_groups_rows (rows : list RawResultTableAndColumn) :
  formatToSqlTable rows
  = map (fun n => {| tableName := n;
                     columns := map sqlColumnOf
                                    (filter (fun r => table_name r = n) rows) |})
        (first_seen (map table_name rows))
  /\ map tableName (formatToSqlTable rows) = first_seen (map table_name rows)
  /\ NoDup (map tableName (formatToSqlTable rows))
  /\ formatToSqlTable [] = [].
Proof.
  rewrite formatToSqlTable_tables_of_rows.
  split; [done|]. unfold tables_of_rows. rewrite tableName_table_of_rows.
  split; [done|]. split; [apply NoDup_first_seen | done].
Qed.

(** C8. The column built from a row is nullable exactly when the row's
    [is_nullable] is the string YES; NO, a lower-case yes and an absent value
    all give a column that is not nullable. *)
Theorem isNullable_iff_YES (r : RawResultTableAndColumn) :
  isNullable (sqlColumnOf r) = Some (bool_decide (is_nullable r = Some "YES"))
  /\ formatToSqlTable [r]
     = [ {| tableName := table_name r;
            columns := [ {| columnName := column_name r;
                            dataType := data_type r;
                            isNullable := Some (bool_decide (is_nullable r = Some "YES")) |} ] |} ]
  /\ is_YES (Some "NO") = false
  /\ is_YES (Some "yes") = false
  /\ is_YES None = false.
Proof.
  assert (E : is_YES (is_nullable r) = bool_decide (is_nullable r = Some "YES")).
  { unfold is_YES. destruct (is_nullable r) as [s|].
    - destruct (String.eqb s "YES") eqn:Es.
      + apply String.eqb_eq in Es. subst s. by rewrite bool_decide_eq_true_2.
      + apply String.eqb_neq in Es. rewrite bool_decide_eq_false_2; [done|].
        intros [= ->]. by apply Es.
    - by rewrite bool_decide_eq_false_2. }
  split; [cbn; by rewrite E|].
  split; [|done].
  cbv [formatToSqlTable foldl formatToSqlTable_step]. cbn. unfold sqlColumnOf.
  by rewrite E.
Qed.

(** *** Validators *)

Lemma verify_loop_first_missing (names pre : list string) (n : string)
    (post : list string) (errorPrefixMsg : string) :
  (forall m, m ∈ pre -> m ∈ names) -> n ∉ names ->
  verify_loop names (pre ++ n :: post) errorPrefixMsg
  = Throw (Error (not_found_message errorPrefixMsg n)).
Proof.
  intros Hpre Hn. induction pre as [|m pre IH]; cbn [app verify_loop].
  - apply Array_includes_false in Hn. by rewrite Hn.
  - assert (Hm : Array_includes names m = true).
    { apply Array_includes_elem_of, Hpre, elem_of_cons. by left. }
    rewrite Hm. cbn [negb]. apply IH. intros k Hk. apply Hpre, elem_of_cons. by right.
Qed.

Lemma verify_loop_all_present (names L : list string) (errorPrefixMsg : string) :
  (forall m, m ∈ L -> m ∈ names) -> verify_loop names L errorPrefixMsg = Ok tt.
Proof.
  induction L as [|m L IH]; intros HL; [done|]. cbn [verify_loop].
  assert (Hm : Array_includes names m = true).
  { apply Array_includes_elem_of, HL, elem_of_cons. by left. }
  rewrite Hm. cbn [negb]. apply IH. intros k Hk. apply HL, elem_of_cons. by right.
Qed.

(** A list with a missing name splits at its first missing name. *)
Lemma first_missing_split (names L : list string) :
  (exists n, n ∈ L /\ n ∉ names) ->
  exists pre n post,
    L = pre ++ n :: post /\ (forall m, m ∈ pre -> m ∈ names) /\ n ∉ names.
Proof.
  induction L as [|a L IH]; intros (n & Hin & Hn).
  - by apply elem_of_nil in Hin.
  - destruct (decide (a ∈ names)) as [Ha|Ha].
    + apply elem_of_cons in Hin as [->|Hin]; [done|].
      destruct IH as (pre & k & post & -> & Hpre & Hk); [by exists n|].
      exists (a :: pre), k, post. split; [done|]. split; [|done].
      intros m [->|Hm]%elem_of_cons; [done | by apply Hpre].
    + exists [], a, L. split; [done|]. split; [|done].
      intros m Hm. by apply elem_of_nil in Hm.
Qed.

Lemma verifyList_nonempty (T : list SqlTable) (L : list string) (errorPrefixMsg : string) :
  verifyListTablesExistInDatabase T L errorPrefixMsg
  = verify_loop (map tableName T) L errorPrefixMsg.
Proof. unfold verifyListTablesExistInDatabase. by destruct L. Qed.

(** *** Selection *)

Lemma nonempty_length {A} (l : list A) : l <> [] -> (0 <? length l)%nat = true.
Proof. destruct l; [done|]. intros _. reflexivity. Qed.

Lemma configured_selection_elem_of (T : list SqlTable) (I G : list string) (t : SqlTable) :
  t ∈ configured_selection T I G
  <-> t ∈ T /\ (I = [] \/ tableName t ∈ I) /\ tableName t ∉ G.
Proof.
  unfold configured_selection, subtract_ignore, intersect_include.
  destruct G as [|g G], I as [|i I]; rewrite ?list_elem_of_filter.
  - split; [intros ?; split_and!; [done | by left | apply not_elem_of_nil] | tauto].
  - split; [intros [? ?]; split_and!; [done | by right | apply not_elem_of_nil] | ].
    intros (? & [?|?] & _); [done | tauto].
  - split; [intros [? ?]; split_and!; [done | by left | done] | tauto].
  - split; [intros (? & ? & ?); split_and!; [done | by right | done] | ].
    intros (? & [?|?] & ?); [done | tauto].
Qed.

Lemma configured_selection_sublist (T : list SqlTable) (I G : list string) :
  sublist (configured_selection T I G) T.
Proof.
  unfold configured_selection, subtract_ignore, intersect_include.
  destruct G, I; try done;
    repeat (etrans; [apply sublist_filter|]); done.
Qed.

Section Properties.
Context {Js : JsRuntime} {Api : AthenaQueryClientApi}.

Lemma bind_lift_Ok {A B} (a : A) (k : A -> M B) (w : World) :
  bind (lift (Ok a)) k w = k a w.
Proof. reflexivity. Qed.

Lemma bind_lift_Throw {A B} (e : Exn) (k : A -> M B) (w : World) :
  bind (lift (Throw e)) k w = (Throw e, w).
Proof. reflexivity. Qed.

Lemma selectedTablesOf_configured (db : AthenaSqlDatabase) :
  selectedTablesOf db None
  = Ok (configured_selection (allTables db) (includesTables db) (ignoreTables db)).
Proof.
  unfold selectedTablesOf, configured_selection, subtract_ignore, intersect_include.
  rewrite Array_filter_includes.
  destruct (includesTables db) as [|i I], (ignoreTables db) as [|g G];
    cbn [length Nat.ltb Nat.leb]; by rewrite ?Array_filter_excludes.
Qed.

(** C3. Without a target list, [getTableInfo] formats the loaded tables
    restricted to the include list when that list is not empty, and then
    without the tables of the ignore list when that list is not empty; the
    selection keeps the order of the loaded list. *)
Theorem getTableInfo_configured_selection (db : AthenaSqlDatabase) (w : World) :
  selectedTablesOf db None
  = Ok (subtract_ignore (ignoreTables db)
          (intersect_include (includesTables db) (allTables db)))
  /\ getTableInfo db None w
     = generateTableInfoFromTables
         (Some (subtract_ignore (ignoreTables db)
                  (intersect_include (includesTables db) (allTables db))))
         (athenaDataSource db) (sampleRowsInTableInfo db) (customDescription db) w
  /\ sublist (subtract_ignore (ignoreTables db)
                (intersect_include (includesTables db) (allTables db)))
             (allTables db).
Proof.
  split; [apply selectedTablesOf_configured|]. split.
  - unfold getTableInfo. by rewrite selectedTablesOf_configured, bind_lift_Ok.
  - apply configured_selection_sublist.
Qed.

Lemma selectedTablesOf_targets (db : AthenaSqlDatabase) (targets : list string) :
  targets <> [] ->
  (forall n, n ∈ targets -> n ∈ map tableName (allTables db)) ->
  selectedTablesOf db (Some targets) = Ok (target_selection (allTables db) targets).
Proof.
  intros Hne Hall. unfold selectedTablesOf, target_selection.
  rewrite (nonempty_length targets Hne), verifyList_nonempty.
  by rewrite verify_loop_all_present, Array_filter_includes.
Qed.

(** C4. A target list that is not empty and names loaded tables only
    selects the loaded tables whose name is a target, in loaded order,
    whatever the configured include and ignore lists are; the names are
    checked against all loaded tables. *)
Theorem getTableInfo_target_selection (db : AthenaSqlDatabase)
    (targets : list string) (w : World) :
  targets <> [] ->
  (forall n, n ∈ targets -> n ∈ map tableName (allTables db)) ->
  selectedTablesOf db (Some targets)
  = Ok (filter (fun t => tableName t ∈ targets) (allTables db))
  /\ getTableInfo db (Some targets) w
     = generateTableInfoFromTables
         (Some (filter (fun t => tableName t ∈ targets) (allTables db)))
         (athenaDataSource db) (sampleRowsInTableInfo db) (customDescription db) w
  /\ sublist (filter (fun t => tableName t ∈ targets) (allTables db)) (allTables db).
Proof.
  intros Hne Hall.
  pose proof (selectedTablesOf_targets db targets Hne Hall) as Hsel.
  split; [exact Hsel|]. split.
  - unfold getTableInfo. by rewrite Hsel, bind_lift_Ok.
  - apply sublist_filter.
Qed.

(** C5. A name list with a name that is not loaded fails validation with
    the caller's prefix and the first missing name, and [getTableInfo]
    with such a target list fails with the target prefix and that name,
    leaving the service, the issued statements and the console as they
    were. *)
Theorem missing_name_fails (T : list SqlTable) (L : list string)
    (errorPrefixMsg : string) :
  (exists n, n ∈ L /\ n ∉ map tableName T) ->
  exists pre n post,
    L = pre ++ n :: post
    /\ (forall m, m ∈ pre -> m ∈ map tableName T)
    /\ (n ∉ map tableName T)
    /\ verifyListTablesExistInDatabase T L errorPrefixMsg
       = Throw (Error (errorPrefixMsg +:+ " the table " +:+ n
                         +:+ " was not found in the database"))
    /\ forall (db : AthenaSqlDatabase) (w : World),
         allTables db = T ->
         getTableInfo db (Some L) w
         = (Throw (Error ("Wrong target table name:" +:+ " the table " +:+ n
                            +:+ " was not found in the database")), w).
Proof.
  intros Hmissing.
  destruct (first_missing_split _ _ Hmissing) as (pre & n & post & -> & Hpre & Hn).
  exists pre, n, post. split_and!; try done.
  - rewrite verifyList_nonempty. by apply verify_loop_first_missing.
  - intros db w <-. unfold getTableInfo, selectedTablesOf.
    rewrite nonempty_length by (by destruct pre).
    rewrite verifyList_nonempty, verify_loop_first_missing by done.
    by rewrite bind_lift_Throw.
Qed.

(** C10. An empty target list does not override: the selection and the
    text are those of a call without a target list. *)
Theorem getTableInfo_empty_target_list (db : AthenaSqlDatabase) (w : World) :
  selectedTablesOf db (Some []) = selectedTablesOf db None
  /\ selectedTablesOf db (Some [])
     = Ok (subtract_ignore (ignoreTables db)
             (intersect_include (includesTables db) (allTables db)))
  /\ getTableInfo db (Some []) w = getTableInfo db None w.
Proof.
  assert (E : selectedTablesOf db (Some []) = selectedTablesOf db None) by reflexivity.
  split; [exact E|]. split.
  - rewrite E. apply selectedTablesOf_configured.
  - unfold getTableInfo. by rewrite E.
Qed.

End Properties.

(** *** Formatter *)

Lemma Contains_append_l (pre needle hay : string) :
  Contains needle hay -> Contains needle (pre +:+ hay).
Proof.
  intros (a & b & ->). exists (pre +:+ a), b. by rewrite append_assoc.
Qed.

Section Formatter_properties.
Context {Js : JsRuntime} {Api : AthenaQueryClientApi}.

Lemma sampleOf_falsy (ds : AthenaQueryClient) (n : JsNumber) (sql : string) (w : World) :
  ToBoolean n = false -> sampleOf ds n sql w = (Ok "", w).
Proof. intros Hn. unfold sampleOf. by rewrite Hn. Qed.

(** What the [try] block leaves behind when a sample statement is issued. *)
Lemma sampleOf_truthy (ds : AthenaQueryClient) (n : JsNumber) (sql : string) (w : World) :
  ToBoolean n = true ->
  sampleOf ds n sql w
  = match client_query ds sql (service w) with
    | (Ok rows, s') =>
        match formatSqlResponseToSimpleTableString (Some rows) with
        | Ok text =>
            (Ok text,
             {| service := s'; issued := issued w ++ [sql]; console := console w |})
        | Throw e =>
            (Ok "",
             {| service := s'; issued := issued w ++ [sql]; console := console w ++ [e] |})
        end
    | (Throw e, s') =>
        (Ok "",
         {| service := s'; issued := issued w ++ [sql]; console := console w ++ [e] |})
    end.
Proof.
  intros Hn. unfold sampleOf, try_catch, bind, query, lift. rewrite Hn.
  destruct (client_query ds sql (service w)) as [[rows|e] s']; [|done].
  cbn [ret]. by destruct (formatSqlResponseToSimpleTableString (Some rows)).
Qed.

Lemma sampleOf_returns (ds : AthenaQueryClient) (n : JsNumber) (sql : string) (w : World) :
  exists sample w', sampleOf ds n sql w = (Ok sample, w').
Proof.
  destruct (ToBoolean n) eqn:Hn.
  - rewrite sampleOf_truthy by done.
    destruct (client_query ds sql (service w)) as [[rows|e] s']; [|eauto].
    destruct (formatSqlResponseToSimpleTableString (Some rows)); eauto.
  - exists "", w. by apply sampleOf_falsy.
Qed.

Lemma tables_loop_cons (t : SqlTable) (rest : list SqlTable) (ds : AthenaQueryClient)
    (n : JsNumber) (cd : option (gmap string string)) (acc sample : string) (w w1 : World) :
  sampleOf ds n (sqlSelectInfoQueryOf t n) w = (Ok sample, w1) ->
  tables_loop (t :: rest) ds n cd acc w
  = tables_loop rest ds n cd (acc +:+ table_block cd n t sample) w1.
Proof. intros Hs. cbn [tables_loop]. unfold bind. by rewrite Hs. Qed.

Lemma tables_loop_returns (tables : list SqlTable) (ds : AthenaQueryClient) (n : JsNumber)
    (cd : option (gmap string string)) (acc : string) (w : World) :
  exists text w', tables_loop tables ds n cd acc w = (Ok text, w').
Proof.
  revert acc w. induction tables as [|t rest IH]; intros acc w.
  - by exists acc, w.
  - destruct (sampleOf_returns ds n (sqlSelectInfoQueryOf t n) w) as (s & w1 & Hs).
    rewrite (tables_loop_cons _ _ _ _ _ _ _ _ _ Hs). apply IH.
Qed.

(** The text gathered before the loop is a prefix of its result. *)
Lemma tables_loop_acc (tables : list SqlTable) (ds : AthenaQueryClient) (n : JsNumber)
    (cd : option (gmap string string)) (acc text : string) (w w' : World) :
  tables_loop tables ds n cd "" w = (Ok text, w') ->
  tables_loop tables ds n cd acc w = (Ok (acc +:+ text), w').
Proof.
  revert acc text w w'. induction tables as [|t rest IH]; intros acc text w w'.
  - intros [= <- <-]. by rewrite append_empty_r.
  - destruct (sampleOf_returns ds n (sqlSelectInfoQueryOf t n) w) as (s & w1 & Hs).
    rewrite !(tables_loop_cons _ _ _ _ _ _ _ _ _ Hs), append_empty.
    destruct (tables_loop_returns rest ds n cd "" w1) as (text' & w2 & Hrest).
    rewrite !(IH _ _ _ _ Hrest). intros [= <- <-]. by rewrite append_assoc.
Qed.

Lemma tables_loop_app (l1 l2 : list SqlTable) (ds : AthenaQueryClient) (n : JsNumber)
    (cd : option (gmap string string)) (acc text1 : string) (w w1 : World) :
  tables_loop l1 ds n cd acc w = (Ok text1, w1) ->
  tables_loop (l1 ++ l2) ds n cd acc w = tables_loop l2 ds n cd text1 w1.
Proof.
  revert acc w. induction l1 as [|t rest IH]; intros acc w.
  - by intros [= <- <-].
  - destruct (sampleOf_returns ds n (sqlSelectInfoQueryOf t n) w) as (s & w0 & Hs).
    cbn [app]. rewrite !(tables_loop_cons _ _ _ _ _ _ _ _ _ Hs). apply IH.
Qed.

Lemma tables_loop_falsy (tables : list SqlTable) (ds : AthenaQueryClient)
    (n : JsNumber) (cd : option (gmap string string)) (acc : string) (w : World) :
  ToBoolean n = false ->
  tables_loop tables ds n cd acc w
  = (Ok (foldl (fun text t => text +:+ table_block cd n t "") acc tables), w).
Proof.
  intros Hn. revert acc. induction tables as [|t rest IH]; intros acc; [done|].
  rewrite (tables_loop_cons _ _ _ _ _ _ _ _ _ (sampleOf_falsy ds n _ w Hn)). apply IH.
Qed.

(** C6. With a sample row count of zero the formatter issues no statement
    and every sample text is empty. Whatever the count and the client, the
    formatter returns a text. When the count is truthy, so that the sample
    statement of a table is issued, and that statement is rejected, the
    error is written to the console, the block of that table has an empty
    sample text, and the tables after it are formatted as they would be
    from the state the rejection left. *)
Theorem sample_failures_are_contained :
  (forall (tables : list SqlTable) (ds : AthenaQueryClient)
          (cd : option (gmap string string)) (w : World),
      generateTableInfoFromTables (Some tables) ds zero cd w
      = (Ok (blocks_without_samples cd zero tables), w))
  /\ (forall (tables : option (list SqlTable)) (ds : AthenaQueryClient) (n : JsNumber)
             (cd : option (gmap string string)) (w : World),
        exists text w', generateTableInfoFromTables tables ds n cd w = (Ok text, w'))
  /\ (forall (pre : list SqlTable) (t : SqlTable) (rest : list SqlTable)
             (ds : AthenaQueryClient) (n : JsNumber) (cd : option (gmap string string))
             (w w1 : World) (text1 : string) (e : Exn) (s' : Service),
        ToBoolean n = true ->
        generateTableInfoFromTables (Some pre) ds n cd w = (Ok text1, w1) ->
        client_query ds (sqlSelectInfoQueryOf t n) (service w1) = (Throw e, s') ->
        exists text2 w2,
          generateTableInfoFromTables (Some rest) ds n cd
            {| service := s';
               issued := issued w1 ++ [sqlSelectInfoQueryOf t n];
               console := console w1 ++ [e] |}
          = (Ok text2, w2)
          /\ generateTableInfoFromTables (Some (pre ++ t :: rest)) ds n cd w
             = (Ok (text1 +:+ table_block cd n t "" +:+ text2), w2)).
Proof.
  split_and!.
  - intros tables ds cd w. by apply tables_loop_falsy.
  - intros [tables|] ds n cd w; [apply tables_loop_returns | by exists "", w].
  - intros pre t rest ds n cd w w1 text1 e s' Hn Hpre Hq.
    cbn [generateTableInfoFromTables] in *.
    set (w1' := {| service := s'; issued := _; console := _ |}).
    destruct (tables_loop_returns rest ds n cd "" w1') as (text2 & w2 & Hrest).
    exists text2, w2. split; [done|].
    rewrite (tables_loop_app _ _ _ _ _ _ _ _ _ Hpre).
    assert (Hs : sampleOf ds n (sqlSelectInfoQueryOf t n) w1 = (Ok "", w1'))
      by (by rewrite sampleOf_truthy, Hq).
    rewrite (tables_loop_cons _ _ _ _ _ _ _ _ _ Hs).
    by rewrite (tables_loop_acc _ _ _ _ _ _ _ _ Hrest), append_assoc.
Qed.

(** C1, amended. For the table [t] with the columns [id int], not nullable,
    and [name varchar], nullable, and a sample row count of zero, the text
    is the description of [t], if any, followed by the line
    [CREATE TABLE t (], the line [id int NOT NULL, name varchar ) ], the
    line [SELECT * FROM t LIMIT 0;] and the line [ id name], and nothing
    after it; no statement is issued. *)
Theorem formatter_example (ds : AthenaQueryClient)
    (cd : option (gmap string string)) (w : World) :
  let text :=
    tableCustomDescriptionOf cd Demo.t
      +:+ "CREATE TABLE t (" +:+ nl +:+ "id int NOT NULL, name varchar ) " +:+ nl
      +:+ "SELECT * FROM t LIMIT 0;" +:+ nl
      +:+ " id name" +:+ nl in
  generateTableInfoFromTables (Some [Demo.t]) ds zero cd w = (Ok text, w)
  /\ Contains ("CREATE TABLE t (" +:+ nl +:+ "id int NOT NULL, name varchar )") text
  /\ Contains "SELECT * FROM t LIMIT 0;" text
  /\ Contains (nl +:+ " id name" +:+ nl) text.
Proof.
  intros text. split_and!.
  - cbn [generateTableInfoFromTables]. rewrite tables_loop_falsy by done.
    cbn [foldl]. rewrite append_empty. unfold table_block, text.
    reflexivity.
  - apply Contains_append_l.
    by exists "", (" " +:+ nl +:+ "SELECT * FROM t LIMIT 0;" +:+ nl +:+ " id name" +:+ nl).
  - apply Contains_append_l.
    by exists ("CREATE TABLE t (" +:+ nl +:+ "id int NOT NULL, name varchar ) " +:+ nl),
              (nl +:+ " id name" +:+ nl).
  - apply Contains_append_l.
    by exists ("CREATE TABLE t (" +:+ nl +:+ "id int NOT NULL, name varchar ) " +:+ nl
               +:+ "SELECT * FROM t LIMIT 0;"), "".
Qed.

(** *** Facade *)

(** C2. A configuration that supplies both the include list and the ignore
    list, empty or not, makes the constructor throw the configuration
    error; the factory then fails with that error and leaves the service,
    the issued statements and the console as they were. *)
Theorem both_lists_rejected (dsc : AthenaQueryClientConfig)
    (inc ign : list string) (n : option JsNumber) (cd : option (gmap string string))
    (w : World) :
  let config :=
    {| config_athenaDataSourceConfig := dsc;
       config_includesTables := Some inc;
       config_ignoreTables := Some ign;
       config_sampleRowsInTableInfo := n;
       config_customDescription := cd |} in
  constructor config
  = Throw (Error "Cannot specify both include_tables and ignoreTables")
  /\ fromDataSourceParams config w
     = (Throw (Error "Cannot specify both include_tables and ignoreTables"), w).
Proof. split; reflexivity. Qed.

(** C9. When the client resolves a statement to the rows [R], whatever
    values they hold, [run] with mode all, or with no mode, returns what
    [JSON.stringify] gives for the array [R], and [run] with mode one
    returns what [JSON.stringify] gives for the first row of [R], or the
    empty string when [R] has no row. *)
Theorem run_serializes (db : AthenaSqlDatabase) (command : string)
    (R : list Row) (s' : Service) (w : World) :
  client_query (athenaDataSource db) command (service w) = (Ok R, s') ->
  let w' := {| service := s'; issued := issued w ++ [command]; console := console w |} in
  run db command (Some fetch_all) w = (JSON_stringify (inl R), w')
  /\ run db command None w = (JSON_stringify (inl R), w')
  /\ run db command (Some fetch_one) w
     = (match R with
        | [] => Ok ""
        | first :: _ => JSON_stringify (inr first)
        end, w').
Proof.
  intros Hq w'. unfold run, bind, query, lift. rewrite Hq. cbn [default].
  split_and!; try reflexivity. by destruct R.
Qed.

End Formatter_properties.

(** ** The properties on the example client *)

(** Replaces the left-hand side of the equation [H] by the value it
    evaluates to. *)
Ltac evaluate_in H value :=
  lazymatch type of H with
  | ?lhs = _ =>
      let E := fresh "E" in
      assert (E : lhs = value) by reflexivity;
      rewrite E in H; clear E
  end.

Example verify_reports_first_missing :
  verifyListTablesExistInDatabase [Demo.t; Demo.broken; Demo.u]
    ["t"; "nope"; "zzz"] "Wrong target table name:"
  = Throw (Error "Wrong target table name: the table nope was not found in the database").
Proof. reflexivity. Qed.

Example run_one_on_no_row :
  fst (run (Demo.db [] [] three) "SELECT a FROM t WHERE 1 = 0" (Some fetch_one) Demo.world0)
  = Ok "".
Proof. reflexivity. Qed.

(** C1, as stated, fails: the text for the table [t] does not contain the
    pseudo-DDL on one line, because a line break follows the opening
    parenthesis. *)
Lemma formatter_example_ddl_not_on_one_line :
  ~ (exists text w',
        generateTableInfoFromTables (Some [Demo.t]) Demo.client zero None Demo.world0
        = (Ok text, w')
        /\ Contains "CREATE TABLE t (id int NOT NULL, name varchar )" text).
Proof.
  intros (text & w' & Hrun & Hc).
  evaluate_in Hrun
    (Ok ("CREATE TABLE t (" +:+ nl +:+ "id int NOT NULL, name varchar ) " +:+ nl
         +:+ "SELECT * FROM t LIMIT 0;" +:+ nl +:+ " id name" +:+ nl),
     Demo.world0).
  injection Hrun as <- _.
  revert Hc. apply not_Contains. vm_compute. reflexivity.
Qed.

(** C4 on the example client: the targets [u] and [broken] are selected in
    loaded order although the include list names [t] only. *)
Lemma getTableInfo_target_selection_witness :
  selectedTablesOf (Demo.db ["t"] [] zero) (Some ["u"; "broken"])
  = Ok [Demo.broken; Demo.u].
Proof.
  destruct (getTableInfo_target_selection (Api := Demo.api)
              (Demo.db ["t"] [] zero) ["u"; "broken"] Demo.world0)
    as (Hsel & _ & _).
  - discriminate.
  - apply Forall_forall, (bool_decide_unpack _). vm_compute. exact I.
  - rewrite Hsel. reflexivity.
Defined.

(** C5 on the example client, with the target list [t], [nope], [u]. *)
Lemma missing_name_fails_witness :
  exists n,
    verifyListTablesExistInDatabase [Demo.t; Demo.broken; Demo.u]
      ["t"; "nope"; "u"] "Wrong target table name:"
    = Throw (Error ("Wrong target table name:" +:+ " the table " +:+ n
                      +:+ " was not found in the database"))
    /\ getTableInfo (Demo.db [] [] three) (Some ["t"; "nope"; "u"]) Demo.world0
       = (Throw (Error ("Wrong target table name:" +:+ " the table " +:+ n
                          +:+ " was not found in the database")), Demo.world0).
Proof.
  destruct (missing_name_fails (Api := Demo.api) [Demo.t; Demo.broken; Demo.u]
              ["t"; "nope"; "u"] "Wrong target table name:")
    as (pre & n & post & _ & _ & _ & Hv & Hinfo).
  - exists "nope". split; apply (bool_decide_unpack _); vm_compute; exact I.
  - exists n. split; [exact Hv | by apply Hinfo].
Defined.

(** C6 on the example client: the sample statement of [broken] is rejected,
    its block has no sample line, and [u] after it has its sample line. *)
Lemma sample_failures_are_contained_witness :
  generateTableInfoFromTables (Some [Demo.t; Demo.broken; Demo.u]) Demo.client three None
    Demo.world0
  = (Ok ("CREATE TABLE t (" +:+ nl +:+ "id int NOT NULL, name varchar ) " +:+ nl
         +:+ "SELECT * FROM t LIMIT 3;" +:+ nl +:+ " id name" +:+ nl +:+ " 1" +:+ nl
         +:+ "CREATE TABLE broken (" +:+ nl +:+ "x int ) " +:+ nl
         +:+ "SELECT * FROM broken LIMIT 3;" +:+ nl +:+ " x" +:+ nl
         +:+ "CREATE TABLE u (" +:+ nl +:+ "k bigint NOT NULL) " +:+ nl
         +:+ "SELECT * FROM u LIMIT 3;" +:+ nl +:+ " k" +:+ nl +:+ " 1" +:+ nl),
     @Build_World _ Demo.api 3%nat
       ["SELECT * FROM t LIMIT 3;" +:+ nl; "SELECT * FROM broken LIMIT 3;" +:+ nl;
        "SELECT * FROM u LIMIT 3;" +:+ nl]
       [Error "TABLE_NOT_FOUND"]).
Proof.
  destruct (proj2 (proj2 (sample_failures_are_contained (Api := Demo.api)))
              [Demo.t] Demo.broken [Demo.u] Demo.client three None Demo.world0
              (@Build_World _ Demo.api 1%nat ["SELECT * FROM t LIMIT 3;" +:+ nl] [])
              ("CREATE TABLE t (" +:+ nl +:+ "id int NOT NULL, name varchar ) " +:+ nl
               +:+ "SELECT * FROM t LIMIT 3;" +:+ nl +:+ " id name" +:+ nl
               +:+ " 1" +:+ nl)
              (Error "TABLE_NOT_FOUND") 2%nat)
    as (text2 & w2 & Hrest & Hall).
  - reflexivity.
  - reflexivity.
  - reflexivity.
  - change ([Demo.t] ++ Demo.broken :: [Demo.u]) with [Demo.t; Demo.broken; Demo.u] in Hall.
    rewrite Hall.
    evaluate_in Hrest
      (Ok ("CREATE TABLE u (" +:+ nl +:+ "k bigint NOT NULL) " +:+ nl
           +:+ "SELECT * FROM u LIMIT 3;" +:+ nl +:+ " k" +:+ nl +:+ " 1" +:+ nl),
       @Build_World _ Demo.api 3%nat
         ["SELECT * FROM t LIMIT 3;" +:+ nl; "SELECT * FROM broken LIMIT 3;" +:+ nl;
          "SELECT * FROM u LIMIT 3;" +:+ nl]
         [Error "TABLE_NOT_FOUND"]).
    injection Hrest as <- <-. reflexivity.
Defined.

(** C9 on the example client, whose answer is the one row [{a: 1}]. *)
Lemma run_serializes_witness :
  run (Demo.db [] [] three) "SELECT a FROM t" (Some fetch_one) Demo.world0
  = (Ok ("{" +:+ dquote +:+ "a" +:+ dquote +:+ ":1}"),
     @Build_World _ Demo.api 1%nat ["SELECT a FROM t"] [])
  /\ run (Demo.db [] [] three) "SELECT a FROM t" (Some fetch_all) Demo.world0
     = (Ok ("[{" +:+ dquote +:+ "a" +:+ dquote +:+ ":1}]"),
        @Build_World _ Demo.api 1%nat ["SELECT a FROM t"] []).
Proof.
  destruct (run_serializes (Api := Demo.api) (Demo.db [] [] three) "SELECT a FROM t"
              [[("a", Demo.VInt 1 I)]] 1%nat Demo.world0)
    as (Hall & _ & Hone).
  - reflexivity.
  - split; [rewrite Hone | rewrite Hall]; reflexivity.
Defined.

(** ** Properties of the whole adapter *)

Example factory_on_shop :
  fst (fromDataSourceParams (Shop.params "shop" (Some ["orders"]) None None) Shop.world0)
  = Ok (Shop.db ["orders"] [] three).
Proof. reflexivity. Qed.

Example getTableInfo_on_shop :
  fst (getTableInfo (Shop.db [] [] Demo.two) None Shop.world0)
  = Ok ("CREATE TABLE orders (" +:+ nl +:+ "id bigint NOT NULL, total double ) " +:+ nl
        +:+ "SELECT * FROM orders LIMIT 2;" +:+ nl +:+ " id total" +:+ nl
        +:+ " 7 9.5" +:+ nl
        +:+ "CREATE TABLE customers (" +:+ nl +:+ "name varchar ) " +:+ nl
        +:+ "SELECT * FROM customers LIMIT 2;" +:+ nl +:+ " name" +:+ nl).
Proof. reflexivity. Qed.

(** *** Validators, continued *)

Lemma verify_loop_Throw_missing (names L : list string) (errorPrefixMsg : string) (e : Exn) :
  verify_loop names L errorPrefixMsg = Throw e -> exists n, n ∈ L /\ n ∉ names.
Proof.
  induction L as [|m L IH]; [done|]. cbn [verify_loop].
  destruct (Array_includes names m) eqn:Hm; cbn [negb].
  - intros (n & Hn & Hmiss)%IH. exists n. split; [|done]. apply elem_of_cons. by right.
  - intros _. exists m. split; [apply elem_of_cons; by left|].
    by apply Array_includes_false.
Qed.

Lemma verifyList_Ok_iff (T : list SqlTable) (L : list string) (errorPrefixMsg : string) :
  verifyListTablesExistInDatabase T L errorPrefixMsg = Ok tt
  <-> forall n, n ∈ L -> n ∈ map tableName T.
Proof.
  rewrite verifyList_nonempty. split.
  - intros Hok n Hn.
    destruct (decide (n ∈ map tableName T)) as [|Hmiss]; [done|]. exfalso.
    destruct (first_missing_split (map tableName T) L) as (pre & k & post & -> & Hpre & Hk);
      [by exists n|].
    rewrite (verify_loop_first_missing _ _ _ _ _ Hpre Hk) in Hok. discriminate.
  - apply verify_loop_all_present.
Qed.

(** X1. Validation of a name list passes exactly when every name of the list
    is the name of a loaded table, whatever the prefix; an empty list always
    passes. *)
Theorem verifyListTablesExistInDatabase_passes_iff (T : list SqlTable)
    (L : list string) (errorPrefixMsg : string) :
  (verifyListTablesExistInDatabase T L errorPrefixMsg = Ok tt
   <-> forall n, n ∈ L -> n ∈ map tableName T)
  /\ verifyListTablesExistInDatabase T [] errorPrefixMsg = Ok tt
  /\ verifyIncludeTablesExistInDatabase T L
     = verifyListTablesExistInDatabase T L "Include tables not found in database:"
  /\ verifyIgnoreTablesExistInDatabase T L
     = verifyListTablesExistInDatabase T L "Ignore tables not found in database:".
Proof. split; [apply verifyList_Ok_iff | done]. Qed.

(** *** The fold of the schema loader, continued *)

Lemma all_columns_alter (c : SqlColumn) (acc : list SqlTable) (i : nat) :
  (i < length acc)%nat ->
  all_columns (alter (push_column c) i acc) ≡ₚ all_columns acc ++ [c].
Proof.
  revert i. induction acc as [|t acc IH]; intros i Hi; cbn in Hi; [lia|].
  destruct i as [|i]; unfold all_columns in *; cbn.
  - rewrite <- !app_assoc. apply Permutation_app_head, Permutation_app_comm.
  - rewrite <- app_assoc. apply Permutation_app_head, IH. lia.
Qed.

Lemma all_columns_step (acc : list SqlTable) (r : RawResultTableAndColumn) :
  all_columns (formatToSqlTable_step acc r) ≡ₚ all_columns acc ++ [sqlColumnOf r].
Proof.
  unfold formatToSqlTable_step.
  destruct (list_find _ acc) as [[i t]|] eqn:Hfind.
  - apply list_find_Some in Hfind as (Hi & _). apply all_columns_alter.
    by eapply lookup_lt_Some.
  - unfold all_columns. rewrite map_app, concat_app. cbn. by rewrite ?app_nil_r.
Qed.

Lemma all_columns_formatToSqlTable (rows : list RawResultTableAndColumn) :
  all_columns (formatToSqlTable rows) ≡ₚ map sqlColumnOf rows.
Proof.
  unfold formatToSqlTable.
  induction rows as [|r rows IH] using rev_ind; [done|].
  rewrite foldl_app, map_app. cbn [foldl map].
  by rewrite all_columns_step, IH.
Qed.

Lemma columns_nonempty (rows : list RawResultTableAndColumn) :
  Forall (fun t => columns t <> []) (formatToSqlTable rows).
Proof.
  rewrite formatToSqlTable_tables_of_rows. unfold tables_of_rows.
  apply Forall_forall. intros t Ht.
  change (map (table_of_rows rows) ?l) with (table_of_rows rows <$> l) in Ht.
  apply list_elem_of_fmap in Ht as (n & -> & Hn).
  apply (proj1 (elem_of_first_seen _ _)) in Hn.
  change (map table_name rows) with (table_name <$> rows) in Hn.
  apply list_elem_of_fmap in Hn as (r & -> & Hr).
  cbn [table_of_rows columns].
  assert (Hin : r ∈ filter (fun r0 => table_name r0 = table_name r) rows)
    by (by apply list_elem_of_filter).
  destruct (filter _ rows); [by apply elem_of_nil in Hin | done].
Qed.

(** X2. The fold of the schema loader loses and invents no column: the
    columns of all the tables it returns are, up to order, the columns read
    from the rows, one per row, and every table it returns has a column. *)
Theorem formatToSqlTable_keeps_columns (rows : list RawResultTableAndColumn) :
  concat (map columns (formatToSqlTable rows)) ≡ₚ map sqlColumnOf rows
  /\ length (concat (map columns (formatToSqlTable rows))) = length rows
  /\ Forall (fun t => columns t <> []) (formatToSqlTable rows).
Proof.
  pose proof (all_columns_formatToSqlTable rows) as Hp. unfold all_columns in Hp.
  split; [done|]. split; [|apply columns_nonempty].
  by rewrite Hp, length_map.
Qed.

(** *** The text of sample rows and of a table *)

Lemma foldl_append {A} (f : A -> string) (l : list A) (acc : string) :
  foldl (fun text x => text +:+ f x) acc l = acc +:+ concat_all (map f l).
Proof.
  revert acc. induction l as [|x l IH]; intros acc; cbn [foldl map concat_all foldr].
  - by rewrite append_empty_r.
  - rewrite IH. fold (concat_all (map f l)). by rewrite append_assoc.
Qed.

Lemma concat_all_app (l1 l2 : list string) :
  concat_all (l1 ++ l2) = concat_all l1 +:+ concat_all l2.
Proof.
  unfold concat_all. induction l1 as [|x l1 IH]; [done|].
  cbn [app foldr]. by rewrite IH, append_assoc.
Qed.

Lemma traverse_app {A B} (f : A -> Res B) (l1 l2 : list A) :
  traverse f (l1 ++ l2)
  = match traverse f l1 with
    | Ok ys1 =>
        match traverse f l2 with
        | Ok ys2 => Ok (ys1 ++ ys2)
        | Throw e => Throw e
        end
    | Throw e => Throw e
    end.
Proof.
  induction l1 as [|x l1 IH]; cbn [app traverse].
  - by destruct (traverse f l2).
  - destruct (f x); [|done]. rewrite IH.
    destruct (traverse f l1); [|done]. by destruct (traverse f l2).
Qed.

Section Sample_text.
Context {Js : JsRuntime}.

Lemma reduce_append_value (vals : list JsValue) (acc : string) :
  reduce append_value vals acc
  = match traverse ToString vals with
    | Ok texts => Ok (acc +:+ concat_all (map (fun text => " " +:+ text) texts))
    | Throw e => Throw e
    end.
Proof.
  revert acc. induction vals as [|v vals IH]; intros acc; cbn [reduce traverse].
  - cbn. by rewrite append_empty_r.
  - unfold append_value at 1. destruct (ToString v) as [text|e]; [|done].
    rewrite IH. destruct (traverse ToString vals) as [texts|e]; [|done].
    cbn [map concat_all foldr]. by rewrite !append_assoc.
Qed.

Lemma append_row_line (acc : string) (oneRow : Row) :
  append_row acc oneRow
  = match row_line oneRow with
    | Ok line => Ok (acc +:+ line)
    | Throw e => Throw e
    end.
Proof.
  unfold append_row, row_line. rewrite reduce_append_value.
  destruct (traverse ToString (Object_values oneRow)); [|done].
  by rewrite append_empty.
Qed.

Lemma reduce_append_row (rows : list Row) (acc : string) :
  reduce append_row rows acc
  = match traverse row_line rows with
    | Ok lines => Ok (acc +:+ concat_all lines)
    | Throw e => Throw e
    end.
Proof.
  revert acc. induction rows as [|r rows IH]; intros acc; cbn [reduce traverse].
  - cbn. by rewrite append_empty_r.
  - rewrite append_row_line. destruct (row_line r) as [line|e]; [|done].
    rewrite IH. destruct (traverse row_line rows) as [lines|e]; [|done].
    cbn [concat_all foldr]. by rewrite append_assoc.
Qed.

Lemma formatSqlResponse_lines (rows : list Row) :
  formatSqlResponseToSimpleTableString (Some rows) = sample_text rows.
Proof.
  unfold formatSqlResponseToSimpleTableString, sample_text.
  destruct rows as [|r rows]; [done|]. cbn [length Nat.eqb].
  rewrite reduce_append_row.
  destruct (traverse row_line (r :: rows)); [|done]. by rewrite append_empty.
Qed.

(** X3. The sample text of a result is the concatenation of one line per
    row, in result order; a line is the conversion of each value of the
    row, preceded by a space, then a line break. The values are converted
    row after row and, in a row, value after value; the first conversion
    that throws makes the whole text throw that error. No result and a
    result without rows both give the empty text, and the text of two
    results put end to end is the text of the first followed by the text of
    the second. *)
Theorem formatSqlResponseToSimpleTableString_lines (rows rows' : list Row) :
  formatSqlResponseToSimpleTableString (Some rows)
  = match
      traverse
        (fun oneRow =>
           match traverse ToString (Object_values oneRow) with
           | Ok texts => Ok (concat_all (map (fun text => " " +:+ text) texts) +:+ nl)
           | Throw e => Throw e
           end) rows
    with
    | Ok lines => Ok (concat_all lines)
    | Throw e => Throw e
    end
  /\ formatSqlResponseToSimpleTableString None = Ok ""
  /\ formatSqlResponseToSimpleTableString (Some []) = Ok ""
  /\ (forall text text',
        formatSqlResponseToSimpleTableString (Some rows) = Ok text ->
        formatSqlResponseToSimpleTableString (Some rows') = Ok text' ->
        formatSqlResponseToSimpleTableString (Some (rows ++ rows')) = Ok (text +:+ text'))
  /\ (forall e,
        formatSqlResponseToSimpleTableString (Some rows) = Throw e ->
        formatSqlResponseToSimpleTableString (Some (rows ++ rows')) = Throw e).
Proof.
  split; [apply formatSqlResponse_lines|]. split; [done|]. split; [done|].
  rewrite !formatSqlResponse_lines. unfold sample_text. rewrite traverse_app.
  destruct (traverse row_line rows) as [lines|e0]; [|by split].
  destruct (traverse row_line rows') as [lines'|e1]; split; try done.
  intros text text' [= <-] [= <-]. by rewrite concat_all_app.
Qed.

Lemma traverse_row_line (rows : list Row) (texts : list (list string)) :
  traverse (fun oneRow => traverse ToString (Object_values oneRow)) rows = Ok texts ->
  traverse row_line rows
  = Ok (map (fun row_texts =>
               concat_all (map (fun text => " " +:+ text) row_texts) +:+ nl) texts).
Proof.
  revert texts. induction rows as [|r rows IH]; intros texts; cbn [traverse].
  - by intros [= <-].
  - unfold row_line at 1.
    destruct (traverse ToString (Object_values r)) as [row_texts|e]; [|done].
    destruct (traverse _ rows) as [rest_texts|e] eqn:Hrows; [|done].
    intros [= <-]. by rewrite (IH _ eq_refl).
Qed.

End Sample_text.

Lemma columns_loop_later (key : nat) (cols : list SqlColumn) (acc : string) :
  (0 < key)%nat ->
  columns_loop key cols acc
  = acc +:+ concat_all (map (fun c => ", " +:+ column_entry c) cols).
Proof.
  revert key acc. induction cols as [|c cols IH]; intros key acc Hkey;
    cbn [columns_loop map concat_all foldr].
  - by rewrite append_empty_r.
  - apply Nat.ltb_lt in Hkey as Hk. rewrite Hk, IH by lia.
    fold (concat_all (map (fun c => ", " +:+ column_entry c) cols)).
    unfold column_entry. by rewrite !append_assoc.
Qed.

Lemma Array_join_cons (sep x : string) (l : list string) :
  Array_join sep (x :: l) = x +:+ concat_all (map (fun y => sep +:+ y) l).
Proof.
  revert x. induction l as [|y l IH]; intros x.
  - cbn. by rewrite append_empty_r.
  - cbn [Array_join] in *. rewrite IH. cbn [map concat_all foldr].
    by rewrite append_assoc.
Qed.

Lemma columns_loop_join (cols : list SqlColumn) (acc : string) :
  columns_loop 0 cols acc = acc +:+ Array_join ", " (map column_entry cols).
Proof.
  destruct cols as [|c cols]; cbn [columns_loop map].
  - cbn. by rewrite append_empty_r.
  - cbn [Nat.ltb Nat.leb]. rewrite columns_loop_later by lia.
    rewrite Array_join_cons, map_map.
    unfold column_entry at 2. by rewrite !append_assoc.
Qed.

(** X4. The text of one table is, in this order: its description and a line
    break when the description map has its name as a key; the line
    [CREATE TABLE name (]; the entries of its columns joined by a comma and
    a space, with no separator before the first or after the last, closed
    by [) ] and a line break; the line of the sample statement with the
    row count; the line of the column names, each preceded by a space; and
    the sample text. *)
Theorem table_block_layout `{JsRuntime} (cd : option (gmap string string))
    (n : JsNumber) (t : SqlTable) (sample : string) :
  table_block cd n t sample
  = from_option (fun text => text +:+ nl) "" (cd ≫= (fun m => m !! tableName t))
      +:+ "CREATE TABLE " +:+ tableName t +:+ " (" +:+ nl
      +:+ Array_join ", " (map column_entry (columns t)) +:+ ") " +:+ nl
      +:+ "SELECT * FROM " +:+ tableName t +:+ " LIMIT " +:+ Number_toString n
      +:+ ";" +:+ nl
      +:+ concat_all (map (fun c => " " +:+ columnName c) (columns t)) +:+ nl
      +:+ sample.
Proof.
  unfold table_block. f_equal.
  - unfold tableCustomDescriptionOf. destruct cd as [m|]; [|done]. cbn.
    by destruct (m !! tableName t).
  - unfold sqlCreateTableQueryOf, sqlSelectInfoQueryOf, columnNamesConcatStringOf.
    rewrite columns_loop_join, (foldl_append (fun c => " " +:+ columnName c)), append_empty.
    by rewrite !append_assoc.
Qed.

Lemma append_length (s t : string) :
  String.length (s +:+ t) = (String.length s + String.length t)%nat.
Proof.
  induction s as [|a s IH]; [done|]. rewrite append_String. cbn [String.length].
  by rewrite IH.
Qed.

Lemma append_inj_l (a b s : string) : a +:+ s = b +:+ s -> a = b.
Proof.
  revert b. induction a as [|x a IH]; intros [|y b] Heq; [done| | |].
  - apply (f_equal String.length) in Heq.
    rewrite append_empty, append_String in Heq. cbn [String.length] in Heq.
    rewrite append_length in Heq. lia.
  - apply (f_equal String.length) in Heq.
    rewrite append_empty, append_String in Heq. cbn [String.length] in Heq.
    rewrite append_length in Heq. lia.
  - rewrite !append_String in Heq. injection Heq as -> Heq. f_equal. by apply IH.
Qed.

(** Two tables have the same sample statement only if they have the same
    name. *)
Lemma sqlSelectInfoQueryOf_inj `{JsRuntime} (t t' : SqlTable) (n : JsNumber) :
  sqlSelectInfoQueryOf t n = sqlSelectInfoQueryOf t' n -> tableName t = tableName t'.
Proof.
  unfold sqlSelectInfoQueryOf. intros Heq.
  apply (inj (String.append "SELECT * FROM ")) in Heq.
  by apply append_inj_l in Heq.
Qed.

Section Adapter_properties.
Context {Js : JsRuntime} {Api : AthenaQueryClientApi}.

(** *** Formatter, continued *)

(** The state a sample statement leaves: the state of the service after
    the statement, the statement added to the issued ones, and at most one
    line added to the console. *)
Lemma sampleOf_truthy_world (ds : AthenaQueryClient) (n : JsNumber) (sql : string)
    (w : World) :
  ToBoolean n = true ->
  exists sample errors,
    sampleOf ds n sql w
    = (Ok sample,
       {| service := snd (client_query ds sql (service w));
          issued := issued w ++ [sql];
          console := console w ++ errors |})
    /\ (length errors <= 1)%nat.
Proof.
  intros Hn. rewrite sampleOf_truthy by done.
  destruct (client_query ds sql (service w)) as [[rows|e] s']; cbn [snd].
  - destruct (formatSqlResponseToSimpleTableString (Some rows)) as [text|e].
    + exists text, []. rewrite app_nil_r. split; [done | cbn; lia].
    + exists "", [e]. split; [done | cbn; lia].
  - exists "", [e]. split; [done | cbn; lia].
Qed.

Lemma tables_loop_issued (tables : list SqlTable) (ds : AthenaQueryClient) (n : JsNumber)
    (cd : option (gmap string string)) (acc : string) (w : World) :
  ToBoolean n = true ->
  issued (snd (tables_loop tables ds n cd acc w))
  = issued w ++ map (fun t => sqlSelectInfoQueryOf t n) tables.
Proof.
  intros Hn. revert acc w. induction tables as [|t rest IH]; intros acc w.
  - cbn. by rewrite app_nil_r.
  - destruct (sampleOf_truthy_world ds n (sqlSelectInfoQueryOf t n) w Hn)
      as (sample & errors & Hs & _).
    rewrite (tables_loop_cons _ _ _ _ _ _ _ _ _ Hs), IH. cbn [issued map].
    by rewrite <- app_assoc.
Qed.

(** X5. The formatter issues one sample statement per table, in the order
    of the tables, when the sample row count is truthy (a number that is
    neither zero nor NaN), and none when it is falsy; the statements issued
    before are kept. The count appears in the statement as the language
    prints it. *)
Theorem generateTableInfoFromTables_statements (tables : list SqlTable)
    (ds : AthenaQueryClient) (n : JsNumber) (cd : option (gmap string string)) (w : World) :
  issued (snd (generateTableInfoFromTables (Some tables) ds n cd w))
  = issued w ++ (if ToBoolean n
                 then map (fun t => "SELECT * FROM " +:+ tableName t +:+ " LIMIT "
                                      +:+ Number_toString n +:+ ";" +:+ nl) tables
                 else []).
Proof.
  cbn [generateTableInfoFromTables]. destruct (ToBoolean n) eqn:Hn.
  - by apply tables_loop_issued.
  - by rewrite tables_loop_falsy, app_nil_r.
Qed.

Lemma generate_app (l1 l2 : list SqlTable) (ds : AthenaQueryClient) (n : JsNumber)
    (cd : option (gmap string string)) (w w1 w2 : World) (text1 text2 : string) :
  generateTableInfoFromTables (Some l1) ds n cd w = (Ok text1, w1) ->
  generateTableInfoFromTables (Some l2) ds n cd w1 = (Ok text2, w2) ->
  generateTableInfoFromTables (Some (l1 ++ l2)) ds n cd w = (Ok (text1 +:+ text2), w2).
Proof.
  cbn [generateTableInfoFromTables]. intros H1 H2.
  rewrite (tables_loop_app _ _ _ _ _ _ _ _ _ H1).
  by apply tables_loop_acc.
Qed.

(** X6. Formatting a list of tables made of two parts is formatting the
    first part, then the second part from the state the first left, and
    putting the two texts end to end. *)
Theorem generateTableInfoFromTables_app (l1 l2 : list SqlTable)
    (ds : AthenaQueryClient) (n : JsNumber) (cd : option (gmap string string))
    (w w1 w2 : World) (text1 text2 : string) :
  generateTableInfoFromTables (Some l1) ds n cd w = (Ok text1, w1) ->
  generateTableInfoFromTables (Some l2) ds n cd w1 = (Ok text2, w2) ->
  generateTableInfoFromTables (Some (l1 ++ l2)) ds n cd w = (Ok (text1 +:+ text2), w2).
Proof. apply generate_app. Qed.

Lemma generate_one_resolved (t : SqlTable) (ds : AthenaQueryClient) (n : JsNumber)
    (cd : option (gmap string string)) (w : World) (rows : list Row) (s' : Service)
    (sample : string) :
  ToBoolean n = true ->
  client_query ds (sqlSelectInfoQueryOf t n) (service w) = (Ok rows, s') ->
  formatSqlResponseToSimpleTableString (Some rows) = Ok sample ->
  generateTableInfoFromTables (Some [t]) ds n cd w
  = (Ok (table_block cd n t sample),
     {| service := s'; issued := issued w ++ [sqlSelectInfoQueryOf t n];
        console := console w |}).
Proof.
  intros Hn Hq Hf. cbn [generateTableInfoFromTables].
  assert (Hs : sampleOf ds n (sqlSelectInfoQueryOf t n) w
               = (Ok sample,
                  {| service := s'; issued := issued w ++ [sqlSelectInfoQueryOf t n];
                     console := console w |}))
    by (by rewrite sampleOf_truthy, Hq, Hf).
  rewrite (tables_loop_cons _ _ _ _ _ _ _ _ _ Hs). cbn [tables_loop].
  by rewrite append_empty.
Qed.

(** X7. When the sample row count is truthy, the client resolves the sample
    statement of a table and every value of the answer converts to a
    string, the text of that table ends with one line per row of the
    answer, each value preceded by a space, nothing is written to the
    console, and the tables after it are formatted from the state the
    statement left. *)
Theorem sample_rows_are_shown (t : SqlTable) (rest : list SqlTable)
    (ds : AthenaQueryClient) (n : JsNumber) (cd : option (gmap string string))
    (w : World) (rows : list Row) (s' : Service) (texts : list (list string)) :
  ToBoolean n = true ->
  client_query ds (sqlSelectInfoQueryOf t n) (service w) = (Ok rows, s') ->
  traverse (fun oneRow => traverse ToString (Object_values oneRow)) rows = Ok texts ->
  exists text2 w2,
    generateTableInfoFromTables (Some rest) ds n cd
      {| service := s'; issued := issued w ++ [sqlSelectInfoQueryOf t n];
         console := console w |}
    = (Ok text2, w2)
    /\ generateTableInfoFromTables (Some (t :: rest)) ds n cd w
       = (Ok (table_block cd n t
                (concat_all
                   (map (fun row_texts =>
                           concat_all (map (fun text => " " +:+ text) row_texts) +:+ nl)
                        texts))
              +:+ text2), w2).
Proof.
  intros Hn Hq Htexts.
  set (w1 := {| service := s'; issued := _; console := _ |}).
  destruct (tables_loop_returns rest ds n cd "" w1) as (text2 & w2 & Hrest).
  exists text2, w2. split; [done|].
  apply (generate_app [t] rest ds n cd w w1 w2); [|done].
  apply (generate_one_resolved t ds n cd w rows s'); [done..|].
  rewrite formatSqlResponse_lines. unfold sample_text.
  by rewrite (traverse_row_line _ _ Htexts).
Qed.

Lemma tables_loop_console (tables : list SqlTable) (ds : AthenaQueryClient) (n : JsNumber)
    (cd : option (gmap string string)) (acc : string) (w : World) :
  exists errors,
    console (snd (tables_loop tables ds n cd acc w)) = console w ++ errors
    /\ (length errors <= length tables)%nat
    /\ (ToBoolean n = false -> errors = []).
Proof.
  revert acc w. induction tables as [|t rest IH]; intros acc w.
  - exists []. cbn. by rewrite app_nil_r.
  - destruct (ToBoolean n) eqn:Hn.
    + destruct (sampleOf_truthy_world ds n (sqlSelectInfoQueryOf t n) w Hn)
        as (sample & errors & Hs & Hone).
      rewrite (tables_loop_cons _ _ _ _ _ _ _ _ _ Hs).
      match goal with
      | |- context [tables_loop rest ds n cd ?a ?w1] =>
          destruct (IH a w1) as (errors' & -> & Hlen & _)
      end.
      cbn [console]. exists (errors ++ errors').
      rewrite app_assoc, length_app. cbn [length]. split_and!; [done | lia | done].
    + exists []. rewrite tables_loop_falsy by done. cbn. rewrite app_nil_r.
      split_and!; [done | lia | done].
Qed.

(** X17. The formatter keeps the lines already on the console and writes at
    most one line per table after them; it writes none when the sample row
    count is zero, or falsy in another way. *)
Theorem generateTableInfoFromTables_console (tables : list SqlTable)
    (ds : AthenaQueryClient) (n : JsNumber) (cd : option (gmap string string)) (w : World) :
  exists errors,
    console (snd (generateTableInfoFromTables (Some tables) ds n cd w))
    = console w ++ errors
    /\ (length errors <= length tables)%nat
    /\ (ToBoolean n = false -> errors = []).
Proof. apply tables_loop_console. Qed.

End Adapter_properties.

Section Facade_properties.
Context {Js : JsRuntime} {Api : AthenaQueryClientApi}.

(** *** [getTableInfo], continued *)

Lemma selectedTablesOf_Throw (db : AthenaSqlDatabase) (targets : option (list string))
    (e : Exn) :
  selectedTablesOf db targets = Throw e ->
  exists pre n post,
    targets = Some (pre ++ n :: post)
    /\ (forall m, m ∈ pre -> m ∈ map tableName (allTables db))
    /\ (n ∉ map tableName (allTables db))
    /\ e = Error (not_found_message "Wrong target table name:" n).
Proof.
  unfold selectedTablesOf. destruct targets as [L|]; [|done].
  destruct (0 <? length L)%nat; [|done].
  rewrite verifyList_nonempty.
  destruct (verify_loop _ L _) as [[]|e'] eqn:Hv; [done|]. intros [= ->].
  apply verify_loop_Throw_missing in Hv as Hmiss.
  destruct (first_missing_split _ _ Hmiss) as (pre & k & post & -> & Hpre & Hk).
  rewrite (verify_loop_first_missing _ _ _ _ _ Hpre Hk) in Hv. injection Hv as <-.
  by exists pre, k, post.
Qed.

Lemma selectedTablesOf_missing (db : AthenaSqlDatabase) (L : list string) (n : string) :
  n ∈ L -> n ∉ map tableName (allTables db) ->
  exists e, selectedTablesOf db (Some L) = Throw e.
Proof.
  intros Hn Hmiss.
  destruct (first_missing_split (map tableName (allTables db)) L)
    as (pre & k & post & -> & Hpre & Hk); [by exists n|].
  unfold selectedTablesOf. rewrite nonempty_length by (by destruct pre).
  rewrite verifyList_nonempty, (verify_loop_first_missing _ _ _ _ _ Hpre Hk). eauto.
Qed.

Lemma getTableInfo_selected (db : AthenaSqlDatabase) (targets : option (list string))
    (sel : list SqlTable) (w : World) :
  selectedTablesOf db targets = Ok sel ->
  getTableInfo db targets w
  = generateTableInfoFromTables (Some sel) (athenaDataSource db)
      (sampleRowsInTableInfo db) (customDescription db) w.
Proof. intros Hsel. unfold getTableInfo. by rewrite Hsel. Qed.

(** X8. [getTableInfo] fails exactly when it is given a target list with a
    name that is not the name of a loaded table. A failure carries the
    target prefix and the first name of the target list that is not the
    name of a loaded table, and leaves the service, the issued statements
    and the console as they were. *)
Theorem getTableInfo_fails_iff (db : AthenaSqlDatabase)
    (targets : option (list string)) (w : World) :
  ((exists e w', getTableInfo db targets w = (Throw e, w'))
   <-> exists L n, targets = Some L /\ n ∈ L /\ n ∉ map tableName (allTables db))
  /\ forall e w',
       getTableInfo db targets w = (Throw e, w') ->
       w' = w
       /\ exists pre n post,
            targets = Some (pre ++ n :: post)
            /\ (forall m, m ∈ pre -> m ∈ map tableName (allTables db))
            /\ (n ∉ map tableName (allTables db))
            /\ e = Error ("Wrong target table name:" +:+ " the table " +:+ n
                            +:+ " was not found in the database").
Proof.
  destruct (selectedTablesOf db targets) as [sel|e0] eqn:Hsel.
  - rewrite (getTableInfo_selected _ _ _ _ Hsel).
    destruct (tables_loop_returns sel (athenaDataSource db) (sampleRowsInTableInfo db)
                (customDescription db) "" w) as (text & w1 & Hret).
    cbn [generateTableInfoFromTables]. rewrite Hret. split; [|done]. split.
    + by intros (e & w' & ?).
    + intros (L & n & -> & Hn & Hmiss).
      destruct (selectedTablesOf_missing db L n Hn Hmiss) as (e & He). congruence.
  - apply selectedTablesOf_Throw in Hsel as Hwhy.
    destruct Hwhy as (pre & n & post & -> & Hpre & Hmiss & ->).
    unfold getTableInfo. rewrite Hsel, bind_lift_Throw. split.
    + split; [intros _ | intros _; eauto].
      exists (pre ++ n :: post), n. split_and!; [done| |done].
      apply elem_of_app. right. apply elem_of_cons. by left.
    + intros e w' [= <- <-]. split; [done | by exists pre, n, post].
Qed.

(** X9. Without a target list, the statements [getTableInfo] issues are the
    sample statements of the configured selection, in loaded order, when
    the sample row count is truthy (a number that is neither zero nor NaN),
    and none when it is falsy. No sample statement of a table whose name is
    in the ignore list is among them. *)
Theorem getTableInfo_statements (db : AthenaSqlDatabase) (w : World) :
  let n := sampleRowsInTableInfo db in
  let selection :=
    subtract_ignore (ignoreTables db)
      (intersect_include (includesTables db) (allTables db)) in
  issued (snd (getTableInfo db None w))
  = issued w ++ (if ToBoolean n
                 then map (fun t => sqlSelectInfoQueryOf t n) selection
                 else [])
  /\ forall t, tableName t ∈ ignoreTables db ->
       sqlSelectInfoQueryOf t n ∉ map (fun t => sqlSelectInfoQueryOf t n) selection.
Proof.
  intros n selection. split.
  - rewrite (getTableInfo_selected _ _ _ _ (selectedTablesOf_configured db)).
    cbn [generateTableInfoFromTables]. fold n. destruct (ToBoolean n) eqn:Hn.
    + by apply tables_loop_issued.
    + by rewrite tables_loop_falsy, app_nil_r.
  - intros t Ht Hin.
    change (map ?f selection) with (f <$> selection) in Hin.
    apply list_elem_of_fmap in Hin as (t' & Heq & Ht').
    apply sqlSelectInfoQueryOf_inj in Heq.
    apply configured_selection_elem_of in Ht' as (_ & _ & Hnot).
    apply Hnot. by rewrite <- Heq.
Qed.

(** X10. A target list that is not empty and names loaded tables only gives
    the text, and leaves the state, that the same database would give
    without a target list if its include list were the target list and its
    ignore list were empty. *)
Theorem getTableInfo_targets_as_include (db : AthenaSqlDatabase)
    (targets : list string) (w : World) :
  targets <> [] ->
  (forall n, n ∈ targets -> n ∈ map tableName (allTables db)) ->
  getTableInfo db (Some targets) w
  = getTableInfo
      {| athenaDataSource := athenaDataSource db;
         allTables := allTables db;
         includesTables := targets;
         ignoreTables := [];
         sampleRowsInTableInfo := sampleRowsInTableInfo db;
         customDescription := customDescription db |}
      None w.
Proof.
  intros Hne Hall.
  rewrite (getTableInfo_selected _ _ _ _ (selectedTablesOf_targets db targets Hne Hall)).
  rewrite (getTableInfo_selected _ _ _ _ (selectedTablesOf_configured _)).
  cbn [athenaDataSource allTables includesTables ignoreTables sampleRowsInTableInfo
       customDescription].
  unfold configured_selection, subtract_ignore, intersect_include, target_selection.
  by destruct targets.
Qed.

(** X11. A database that comes from the constructor alone has no table
    loaded: without a target list [getTableInfo] returns the empty text and
    issues nothing, and with a target list that is not empty it fails on
    the first target. *)
Theorem getTableInfo_before_loading (config : AthenaSqlDatabaseDataSourceParams)
    (db : AthenaSqlDatabase) (w : World) :
  constructor config = Ok db ->
  getTableInfo db None w = (Ok "", w)
  /\ forall first others,
       getTableInfo db (Some (first :: others)) w
       = (Throw (Error ("Wrong target table name:" +:+ " the table " +:+ first
                          +:+ " was not found in the database")), w).
Proof.
  unfold constructor.
  destruct (config_includesTables config) as [I|], (config_ignoreTables config) as [G|];
    intros [= <-]; (split; [| by intros first others]).
  - unfold getTableInfo, selectedTablesOf. cbn [allTables includesTables ignoreTables default].
    by destruct I.
  - unfold getTableInfo, selectedTablesOf. cbn [allTables includesTables ignoreTables default].
    by destruct G.
  - done.
Qed.

(** *** [run], continued *)

(** X12. [run] issues exactly one statement, the command as given, in every
    fetch mode and whatever the client answers, and writes nothing to the
    console; when the client rejects the statement, [run] fails with the
    error of the client. *)
Theorem run_issues_command (db : AthenaSqlDatabase) (command : string)
    (fetch : option FetchMode) (w : World) :
  issued (snd (run db command fetch w)) = issued w ++ [command]
  /\ console (snd (run db command fetch w)) = console w
  /\ forall e s',
       client_query (athenaDataSource db) command (service w) = (Throw e, s') ->
       run db command fetch w
       = (Throw e, {| service := s'; issued := issued w ++ [command];
                      console := console w |}).
Proof.
  unfold run, bind, query.
  destruct (client_query (athenaDataSource db) command (service w)) as [[rows|e] s'].
  - split_and!; [| |done];
      destruct fetch as [[]|]; cbn [default]; try done;
      by destruct rows.
  - split_and!; [done..|]. by intros e' s'' [= <- <-].
Qed.

End Facade_properties.

Section Factory_properties.
Context {Js : JsRuntime} {Api : AthenaQueryClientApi}.

(** *** The factory *)

(** The factory, once the constructor has returned, by the answer of the
    client to the schema statement and the results of the two validations. *)
Lemma fromDataSourceParams_cases (fields : AthenaSqlDatabaseDataSourceParams)
    (db0 : AthenaSqlDatabase) (w : World) :
  constructor fields = Ok db0 ->
  let sql := schema_statement (client_database (athenaDataSource db0)) in
  fromDataSourceParams fields w
  = match client_query (athenaDataSource db0) sql (service w) with
    | (Throw e, s') =>
        (Throw e, {| service := s'; issued := issued w ++ [sql]; console := console w |})
    | (Ok rows, s') =>
        let w' := {| service := s'; issued := issued w ++ [sql]; console := console w |} in
        let tables := formatToSqlTable (map asRawResult rows) in
        match verifyIncludeTablesExistInDatabase tables (includesTables db0) with
        | Throw e => (Throw e, w')
        | Ok _ =>
            match verifyIgnoreTablesExistInDatabase tables (ignoreTables db0) with
            | Throw e => (Throw e, w')
            | Ok _ => (Ok (with_allTables db0 tables), w')
            end
        end
    end.
Proof.
  intros Hc sql. unfold fromDataSourceParams. rewrite Hc, bind_lift_Ok.
  unfold getTableAndColumnsName, bind, query, ret, lift.
  change (client_query (athenaDataSource db0) _ (service w))
    with (client_query (athenaDataSource db0) sql (service w)).
  destruct (client_query (athenaDataSource db0) sql (service w)) as [[rows|e] s']; [|done].
  cbn [with_allTables allTables includesTables ignoreTables].
  destruct (verifyIncludeTablesExistInDatabase _ _); [|done].
  by destruct (verifyIgnoreTablesExistInDatabase _ _).
Qed.

Lemma constructor_Ok (fields : AthenaSqlDatabaseDataSourceParams) (db0 : AthenaSqlDatabase) :
  constructor fields = Ok db0 ->
  (config_includesTables fields = None \/ config_ignoreTables fields = None)
  /\ db0 = {| athenaDataSource := new_AthenaQueryClient (config_athenaDataSourceConfig fields);
              allTables := [];
              includesTables := default [] (config_includesTables fields);
              ignoreTables := default [] (config_ignoreTables fields);
              sampleRowsInTableInfo := default three (config_sampleRowsInTableInfo fields);
              customDescription := None |}.
Proof.
  unfold constructor.
  destruct (config_includesTables fields), (config_ignoreTables fields);
    intros [= <-]; split; auto.
Qed.

Lemma constructor_one_list (fields : AthenaSqlDatabaseDataSourceParams) :
  config_includesTables fields = None \/ config_ignoreTables fields = None ->
  constructor fields
  = Ok {| athenaDataSource := new_AthenaQueryClient (config_athenaDataSourceConfig fields);
          allTables := [];
          includesTables := default [] (config_includesTables fields);
          ignoreTables := default [] (config_ignoreTables fields);
          sampleRowsInTableInfo := default three (config_sampleRowsInTableInfo fields);
          customDescription := None |}.
Proof.
  unfold constructor.
  destruct (config_includesTables fields), (config_ignoreTables fields);
    intros [|]; done.
Qed.

(** X13. When at most one of the two lists is supplied, the client resolves
    the schema statement and every configured name is the name of a table
    of the answer, the factory returns a database whose tables are the fold
    of the answer, whose lists are the supplied ones (empty when absent),
    whose sample row count is the supplied one or 3, and which has no
    description map; exactly the schema statement has been issued. *)
Theorem fromDataSourceParams_succeeds (fields : AthenaSqlDatabaseDataSourceParams)
    (rows : list Row) (s' : Service) (w : World) :
  let client := new_AthenaQueryClient (config_athenaDataSourceConfig fields) in
  let sql := schema_statement (client_database client) in
  let tables := formatToSqlTable (map asRawResult rows) in
  config_includesTables fields = None \/ config_ignoreTables fields = None ->
  client_query client sql (service w) = (Ok rows, s') ->
  (forall n, n ∈ default [] (config_includesTables fields) -> n ∈ map tableName tables) ->
  (forall n, n ∈ default [] (config_ignoreTables fields) -> n ∈ map tableName tables) ->
  fromDataSourceParams fields w
  = (Ok {| athenaDataSource := client;
           allTables := tables;
           includesTables := default [] (config_includesTables fields);
           ignoreTables := default [] (config_ignoreTables fields);
           sampleRowsInTableInfo := default three (config_sampleRowsInTableInfo fields);
           customDescription := None |},
     {| service := s'; issued := issued w ++ [sql]; console := console w |}).
Proof.
  intros client sql tables Hone Hq Hinc Hign.
  rewrite (fromDataSourceParams_cases _ _ w (constructor_one_list fields Hone)).
  cbn [athenaDataSource includesTables ignoreTables]. fold client sql. rewrite Hq.
  cbn zeta. fold tables.
  unfold verifyIncludeTablesExistInDatabase, verifyIgnoreTablesExistInDatabase.
  rewrite (proj2 (verifyList_Ok_iff tables _ _) Hinc).
  by rewrite (proj2 (verifyList_Ok_iff tables _ _) Hign).
Qed.

(** X14. A database returned by the factory is well formed: every name of
    its include list and of its ignore list is the name of one of its
    tables, one of the two lists is empty, no two of its tables have the
    same name, every table has a column, and it has no description map;
    the factory has issued the schema statement and nothing else, and has
    written nothing to the console. *)
Theorem fromDataSourceParams_invariant (fields : AthenaSqlDatabaseDataSourceParams)
    (db : AthenaSqlDatabase) (w w' : World) :
  fromDataSourceParams fields w = (Ok db, w') ->
  (forall n, n ∈ includesTables db -> n ∈ map tableName (allTables db))
  /\ (forall n, n ∈ ignoreTables db -> n ∈ map tableName (allTables db))
  /\ (includesTables db = [] \/ ignoreTables db = [])
  /\ NoDup (map tableName (allTables db))
  /\ Forall (fun t => columns t <> []) (allTables db)
  /\ customDescription db = None
  /\ issued w' = issued w ++ [schema_statement (client_database (athenaDataSource db))]
  /\ console w' = console w.
Proof.
  destruct (constructor fields) as [db0|e0] eqn:Hc.
  2:{ unfold fromDataSourceParams. rewrite Hc, bind_lift_Throw. done. }
  rewrite (fromDataSourceParams_cases _ _ w Hc). cbn zeta.
  apply constructor_Ok in Hc as (Hone & Hdb0).
  destruct (client_query _ _ (service w)) as [[rows|e] s']; [|done].
  destruct (verifyIncludeTablesExistInDatabase _ _) as [[]|] eqn:Hinc; [|done].
  destruct (verifyIgnoreTablesExistInDatabase _ _) as [[]|] eqn:Hign; [|done].
  intros [= <- <-]. cbn [with_allTables allTables includesTables ignoreTables
                         customDescription athenaDataSource issued console].
  split_and!; try done.
  - exact (proj1 (verifyList_Ok_iff _ _ _) Hinc).
  - exact (proj1 (verifyList_Ok_iff _ _ _) Hign).
  - subst db0. cbn [includesTables ignoreTables].
    destruct Hone as [-> | ->]; [by left | by right].
  - rewrite formatToSqlTable_tables_of_rows. unfold tables_of_rows.
    rewrite tableName_table_of_rows. apply NoDup_first_seen.
  - apply columns_nonempty.
  - by subst db0.
Qed.

(** X15. When the client rejects the schema statement, the factory fails
    with the error of the client, after that one statement. *)
Theorem fromDataSourceParams_query_error (fields : AthenaSqlDatabaseDataSourceParams)
    (e : Exn) (s' : Service) (w : World) :
  let client := new_AthenaQueryClient (config_athenaDataSourceConfig fields) in
  let sql := schema_statement (client_database client) in
  config_includesTables fields = None \/ config_ignoreTables fields = None ->
  client_query client sql (service w) = (Throw e, s') ->
  fromDataSourceParams fields w
  = (Throw e, {| service := s'; issued := issued w ++ [sql]; console := console w |}).
Proof.
  intros client sql Hone Hq.
  rewrite (fromDataSourceParams_cases _ _ w (constructor_one_list fields Hone)).
  cbn [athenaDataSource]. fold client sql. by rewrite Hq.
Qed.

(** X16. When the include list has a name that is not the name of a table
    of the answer to the schema statement, the factory fails with the
    include prefix and the first such name; the schema statement has been
    issued by then. The same holds of the ignore list, with the ignore
    prefix. *)
Theorem fromDataSourceParams_missing_name (fields : AthenaSqlDatabaseDataSourceParams)
    (rows : list Row) (s' : Service) (w : World)
    (pre : list string) (n : string) (post : list string) :
  let client := new_AthenaQueryClient (config_athenaDataSourceConfig fields) in
  let sql := schema_statement (client_database client) in
  let tables := formatToSqlTable (map asRawResult rows) in
  let w' := {| service := s'; issued := issued w ++ [sql]; console := console w |} in
  client_query client sql (service w) = (Ok rows, s') ->
  (forall m, m ∈ pre -> m ∈ map tableName tables) ->
  n ∉ map tableName tables ->
  (config_includesTables fields = Some (pre ++ n :: post) ->
   config_ignoreTables fields = None ->
   fromDataSourceParams fields w
   = (Throw (Error ("Include tables not found in database:" +:+ " the table " +:+ n
                      +:+ " was not found in the database")), w'))
  /\ (config_includesTables fields = None ->
      config_ignoreTables fields = Some (pre ++ n :: post) ->
      fromDataSourceParams fields w
      = (Throw (Error ("Ignore tables not found in database:" +:+ " the table " +:+ n
                         +:+ " was not found in the database")), w')).
Proof.
  intros client sql tables w' Hq Hpre Hn. split; intros Hinc Hign.
  - rewrite (fromDataSourceParams_cases _ _ w
               (constructor_one_list fields (or_intror Hign))).
    cbn [athenaDataSource includesTables ignoreTables]. fold client sql. rewrite Hq.
    cbn zeta. fold tables. rewrite Hinc. cbn [default]. unfold id.
    unfold verifyIncludeTablesExistInDatabase.
    by rewrite verifyList_nonempty, (verify_loop_first_missing _ _ _ _ _ Hpre Hn).
  - rewrite (fromDataSourceParams_cases _ _ w
               (constructor_one_list fields (or_introl Hinc))).
    cbn [athenaDataSource includesTables ignoreTables]. fold client sql. rewrite Hq.
    cbn zeta. fold tables. rewrite Hinc, Hign. cbn [default]. unfold id.
    unfold verifyIncludeTablesExistInDatabase, verifyIgnoreTablesExistInDatabase.
    rewrite (verifyList_nonempty tables []). cbn [verify_loop].
    by rewrite verifyList_nonempty, (verify_loop_first_missing _ _ _ _ _ Hpre Hn).
Qed.

End Factory_properties.

(** ** The properties of the whole adapter on the example clients *)

(** X6 on the first example client: [t] then [u], three sample rows asked. *)
Lemma generateTableInfoFromTables_app_witness :
  generateTableInfoFromTables (Some ([Demo.t] ++ [Demo.u])) Demo.client three None Demo.world0
  = (Ok (("CREATE TABLE t (" +:+ nl +:+ "id int NOT NULL, name varchar ) " +:+ nl
          +:+ "SELECT * FROM t LIMIT 3;" +:+ nl +:+ " id name" +:+ nl +:+ " 1" +:+ nl)
         +:+ ("CREATE TABLE u (" +:+ nl +:+ "k bigint NOT NULL) " +:+ nl
              +:+ "SELECT * FROM u LIMIT 3;" +:+ nl +:+ " k" +:+ nl +:+ " 1" +:+ nl)),
     @Build_World _ Demo.api 2%nat
       ["SELECT * FROM t LIMIT 3;" +:+ nl; "SELECT * FROM u LIMIT 3;" +:+ nl] []).
Proof.
  apply (generateTableInfoFromTables_app (Api := Demo.api) [Demo.t] [Demo.u]
           Demo.client three None Demo.world0
           (@Build_World _ Demo.api 1%nat ["SELECT * FROM t LIMIT 3;" +:+ nl] []));
    reflexivity.
Defined.

(** X7 on the second example client: the row of [orders] is shown, and
    [customers] after it is formatted although its sample is rejected. *)
Lemma sample_rows_are_shown_witness :
  generateTableInfoFromTables (Some [Shop.orders; Shop.customers]) Shop.client Demo.two None
    Shop.world0
  = (Ok ("CREATE TABLE orders (" +:+ nl +:+ "id bigint NOT NULL, total double ) " +:+ nl
         +:+ "SELECT * FROM orders LIMIT 2;" +:+ nl +:+ " id total" +:+ nl
         +:+ " 7 9.5" +:+ nl
         +:+ "CREATE TABLE customers (" +:+ nl +:+ "name varchar ) " +:+ nl
         +:+ "SELECT * FROM customers LIMIT 2;" +:+ nl +:+ " name" +:+ nl),
     @Build_World _ Shop.api 2%nat
       ["SELECT * FROM orders LIMIT 2;" +:+ nl; "SELECT * FROM customers LIMIT 2;" +:+ nl]
       [Error "ACCESS_DENIED"]).
Proof.
  destruct (sample_rows_are_shown (Api := Shop.api) Shop.orders [Shop.customers]
              Shop.client Demo.two None Shop.world0 [Shop.order_row] 1%nat
              [["7"; "9.5"]])
    as (text2 & w2 & Hrest & Hall).
  - reflexivity.
  - reflexivity.
  - reflexivity.
  - rewrite Hall.
    evaluate_in Hrest
      (Ok ("CREATE TABLE customers (" +:+ nl +:+ "name varchar ) " +:+ nl
           +:+ "SELECT * FROM customers LIMIT 2;" +:+ nl +:+ " name" +:+ nl),
       @Build_World _ Shop.api 2%nat
         ["SELECT * FROM orders LIMIT 2;" +:+ nl;
          "SELECT * FROM customers LIMIT 2;" +:+ nl]
         [Error "ACCESS_DENIED"]).
    injection Hrest as <- <-. reflexivity.
Defined.

(** X10 on the second example client: the target [orders] against an
    include list and an ignore list that both name [customers]. *)
Lemma getTableInfo_targets_as_include_witness :
  getTableInfo (Shop.db ["customers"] ["customers"] Demo.two) (Some ["orders"]) Shop.world0
  = getTableInfo (Shop.db ["orders"] [] Demo.two) None Shop.world0.
Proof.
  apply (getTableInfo_targets_as_include (Api := Shop.api)
           (Shop.db ["customers"] ["customers"] Demo.two) ["orders"] Shop.world0).
  - discriminate.
  - apply Forall_forall, (bool_decide_unpack _). vm_compute. exact I.
Defined.

(** X11 on the second example client, with no list supplied. *)
Lemma getTableInfo_before_loading_witness :
  getTableInfo (@Build_AthenaSqlDatabase _ Shop.api "shop" [] [] [] three None) None Shop.world0
  = (Ok "", Shop.world0)
  /\ getTableInfo (@Build_AthenaSqlDatabase _ Shop.api "shop" [] [] [] three None)
       (Some ["orders"]) Shop.world0
     = (Throw (Error "Wrong target table name: the table orders was not found in the database"),
        Shop.world0).
Proof.
  destruct (getTableInfo_before_loading (Api := Shop.api)
              (Shop.params "shop" None None None)
              (@Build_AthenaSqlDatabase _ Shop.api "shop" [] [] [] three None) Shop.world0)
    as (Hnone & Hsome).
  - reflexivity.
  - split; [exact Hnone | exact (Hsome "orders" [])].
Defined.

(** X12 on the first example client: a statement that reads [broken]. *)
Lemma run_issues_command_witness :
  run (Demo.db [] [] three) "SELECT x FROM broken LIMIT 1" None Demo.world0
  = (Throw (Error "TABLE_NOT_FOUND"),
     @Build_World _ Demo.api 1%nat ["SELECT x FROM broken LIMIT 1"] []).
Proof.
  apply (proj2 (proj2 (run_issues_command (Api := Demo.api) (Demo.db [] [] three)
                         "SELECT x FROM broken LIMIT 1" None Demo.world0))).
  reflexivity.
Defined.

(** X13 on the second example client: the include list names [orders] and
    the sample row count 0 is supplied. *)
Lemma fromDataSourceParams_succeeds_witness :
  fromDataSourceParams (Shop.params "shop" (Some ["orders"]) None (Some zero)) Shop.world0
  = (Ok (Shop.db ["orders"] [] zero),
     @Build_World _ Shop.api 1%nat [schema_statement "shop"] []).
Proof.
  apply (fromDataSourceParams_succeeds (Api := Shop.api)
           (Shop.params "shop" (Some ["orders"]) None (Some zero))
           Shop.schema_rows 1%nat Shop.world0).
  - by right.
  - reflexivity.
  - apply Forall_forall, (bool_decide_unpack _). vm_compute. exact I.
  - apply Forall_forall, (bool_decide_unpack _). vm_compute. exact I.
Defined.

(** X14 on the second example client. *)
Lemma fromDataSourceParams_invariant_witness :
  NoDup (map tableName (allTables (Shop.db [] ["customers"] three)))
  /\ forall n, n ∈ ["customers"] -> n ∈ map tableName [Shop.orders; Shop.customers].
Proof.
  destruct (fromDataSourceParams_invariant (Api := Shop.api)
              (Shop.params "shop" None (Some ["customers"]) None)
              (Shop.db [] ["customers"] three) Shop.world0
              (@Build_World _ Shop.api 1%nat [schema_statement "shop"] []))
    as (_ & Hign & _ & Hnd & _).
  - reflexivity.
  - split; [exact Hnd | exact Hign].
Defined.

(** X15 on the second example client: the database [offline]. *)
Lemma fromDataSourceParams_query_error_witness :
  fromDataSourceParams (Shop.params "offline" None None None) Shop.world0
  = (Throw (Error "SERVICE_UNAVAILABLE"),
     @Build_World _ Shop.api 1%nat [schema_statement "offline"] []).
Proof.
  apply (fromDataSourceParams_query_error (Api := Shop.api)
           (Shop.params "offline" None None None)
           (Error "SERVICE_UNAVAILABLE") 1%nat Shop.world0).
  - by left.
  - reflexivity.
Defined.

(** X16 on the second example client: [invoices] and [zzz] are not tables
    of the schema; the first of them is reported. *)
Lemma fromDataSourceParams_missing_name_witness :
  fromDataSourceParams (Shop.params "shop" (Some ["orders"; "invoices"; "zzz"]) None None)
    Shop.world0
  = (Throw (Error ("Include tables not found in database:" +:+ " the table " +:+ "invoices"
                     +:+ " was not found in the database")),
     @Build_World _ Shop.api 1%nat [schema_statement "shop"] []).
Proof.
  destruct (fromDataSourceParams_missing_name (Api := Shop.api)
              (Shop.params "shop" (Some ["orders"; "invoices"; "zzz"]) None None)
              Shop.schema_rows 1%nat Shop.world0 ["orders"] "invoices" ["zzz"])
    as (Hinc & _).
  - reflexivity.
  - apply Forall_forall, (bool_decide_unpack _). vm_compute. exact I.
  - apply (bool_decide_unpack _). vm_compute. exact I.
  - by apply Hinc.
Defined.
